(** * Item resource handlers of the todo backend

    A shallow embedding of [backend/src/routers/items.py]: the six route
    handlers [create_item], [get_items], [get_user_items], [get_item],
    [patch_item] and [delete_item], run against an explicit model of the
    database session they receive.

    Every handler is a computation in a small state-and-exception monad:
    the state is the content of the two tables, an exception is the
    [HTTPException] the handler raises. *)

From Stdlib Require Import ZArith List String Bool Lia.
Import ListNotations.
Local Open Scope string_scope.
Local Open Scope Z_scope.

(** ** Rows and payloads *)

(** The columns of [User] the handlers read. *)
Record User := mkUser {
  u_id : Z;
  is_admin : bool
}.

Record Item := mkItem {
  id : Z;
  title : string;
  description : string;
  done : bool;
  user_id : Z
}.

(** Creation payload: every field is required. *)
Record ItemBase := mkItemBase {
  b_title : string;
  b_description : string;
  b_done : bool
}.

(** Patch payload: every field is optional, [None] is Python's [None]. *)
Record ItemUpdate := mkItemUpdate {
  p_title : option string;
  p_description : option string;
  p_done : option bool
}.

(** ** The store behind the session

    [items] keeps the rows of the item table in storage order.  The
    primary key of a new row is handed out by the database; [next_id] is
    the next key it will hand out. *)
Record Store := mkStore {
  users : list User;
  items : list Item;
  next_id : Z
}.

(** ** Exceptions and responses *)

Inductive HTTPException :=
| Forbidden                               (* 403, no rights for the operation *)
| UserNotFound (user_id : Z)              (* 404, "User with id .. not found!" *)
| ItemNotFound (item_id user_id : Z)      (* 404, "Item with id .. for user with id .. not found!" *)
| ValidationError.                        (* raised by model_validate *)

Definition exc_status (e : HTTPException) : Z :=
  match e with
  | Forbidden => 403
  | UserNotFound _ => 404
  | ItemNotFound _ _ => 404
  | ValidationError => 422
  end.

(** The value under the "item" / "items" key of the JSON envelope. *)
Inductive Content :=
| NoPayload
| ItemPayload (it : Item)
| ItemsPayload (l : list Item).

Inductive Response :=
| JSONResponse (status_code : Z) (message : string) (content : Content)
| EmptyResponse (status_code : Z).

Inductive Outcome (A : Type) :=
| Return (a : A)
| Raise (e : HTTPException).
Arguments Return {A} a.
Arguments Raise {A} e.

(** The HTTP status a client observes. *)
Definition http_status (o : Outcome Response) : Z :=
  match o with
  | Return (JSONResponse c _ _) => c
  | Return (EmptyResponse c) => c
  | Raise e => exc_status e
  end.

(** ** The session monad *)

Definition Session (A : Type) : Type := Store -> Outcome A * Store.

Definition ret {A} (a : A) : Session A := fun s => (Return a, s).

Definition raise {A} (e : HTTPException) : Session A := fun s => (Raise e, s).

Definition bind {A B} (c : Session A) (k : A -> Session B) : Session B :=
  fun s =>
    match c s with
    | (Return a, s') => k a s'
    | (Raise e, s') => (Raise e, s')
    end.

Declare Scope session_scope.
Delimit Scope session_scope with session.
Notation "x <- c ;; k" := (bind c (fun x => k))
  (at level 61, c at next level, right associativity) : session_scope.
Notation "c ;; k" := (bind c (fun _ => k))
  (at level 61, right associativity) : session_scope.
Local Open Scope session_scope.

(** [if cond: raise HTTPException(...)] *)
Definition raise_if (cond : bool) (e : HTTPException) : Session unit :=
  if cond then raise e else ret tt.

(** ** Session primitives *)

(** [session.get(User, user_id)] *)
Definition session_get_user (uid : Z) : Session (option User) :=
  fun s => (Return (find (fun u => u_id u =? uid) (users s)), s).

(** [select(Item).where(Item.id == item_id).where(Item.user_id == user_id)],
    then [.first()] *)
Definition select_item_first (item_id uid : Z) : Session (option Item) :=
  fun s =>
    (Return (find (fun it => (id it =? item_id) && (user_id it =? uid)) (items s)), s).

(** SQL [OFFSET offset LIMIT limit] over the rows in storage order, for the
    values [Query(ge=0)] and [Query(ge=1)] let through. *)
Definition offset_limit {A} (offset limit : Z) (rows : list A) : list A :=
  firstn (Z.to_nat limit) (skipn (Z.to_nat offset) rows).

(** [session.exec(select(Item).offset(offset).limit(limit)).all()] *)
Definition select_items_page (offset limit : Z) : Session (list Item) :=
  fun s => (Return (offset_limit offset limit (items s)), s).

(** [user.items]: the relationship loads the rows owned by the user. *)
Definition user_items (u : User) : Session (list Item) :=
  fun s => (Return (filter (fun it => user_id it =? u_id u) (items s)), s).

(** [session.add(new_item); session.commit(); session.refresh(new_item)]
    for an object that has no primary key yet: the row is appended with
    the next key and read back. *)
Definition session_insert (t d : string) (dn : bool) (uid : Z) : Session Item :=
  fun s =>
    let row := mkItem (next_id s) t d dn uid in
    (Return row, mkStore (users s) (items s ++ [row]) (next_id s + 1)).

(** [session.add(item_db); session.commit(); session.refresh(item_db)] for
    a loaded object: the row with its primary key is rewritten in place. *)
Definition session_update (it : Item) : Session Item :=
  fun s =>
    (Return it,
     mkStore (users s)
             (map (fun r => if id r =? id it then it else r) (items s))
             (next_id s)).

(** [session.delete(item); session.commit()] *)
Definition session_delete (it : Item) : Session unit :=
  fun s =>
    (Return tt,
     mkStore (users s)
             (filter (fun r => negb (id r =? id it)) (items s))
             (next_id s)).

(** ** Python values *)

(** Truth value of an [Optional[str]]: [None] and the empty string are
    falsy. *)
Definition truthy (o : option string) : bool :=
  match o with
  | None => false
  | Some EmptyString => false
  | Some (String _ _) => true
  end.

(** Clamp of one slice bound against a sequence of length [n]. *)
Definition slice_index (n i : Z) : Z :=
  if i <? 0 then Z.max (i + n) 0 else Z.min i n.

(** [l[lo:hi]] *)
Definition py_slice {A} (l : list A) (lo hi : Z) : list A :=
  let n := Z.of_nat (List.length l) in
  let lo' := slice_index n lo in
  let hi' := slice_index n hi in
  firstn (Z.to_nat (hi' - lo')) (skipn (Z.to_nat lo') l).

(** The guard every user-scoped handler opens with:
    [not current_user.is_admin and current_user.id != user_id]. *)
Definition not_allowed (current_user : User) (uid : Z) : bool :=
  negb (is_admin current_user) && negb (u_id current_user =? uid).

(** ** Well-formed stores

    [id] is the primary key of the item table: no two rows share it, and
    the database only hands out keys above those in use. *)
Fixpoint unique_ids (l : list Item) : bool :=
  match l with
  | [] => true
  | it :: rest => forallb (fun r => negb (id r =? id it)) rest && unique_ids rest
  end.

Definition store_ok (s : Store) : bool :=
  unique_ids (items s) && forallb (fun it => id it <? next_id s) (items s).

(** What identifies a row and its owner. *)
Definition item_key (it : Item) : Z * Z := (id it, user_id it).

(** The rows a user owns, as [user.items] loads them. *)
Definition owned_by (uid : Z) (s : Store) : list Item :=
  filter (fun it => user_id it =? uid) (items s).

(** ** Sample data *)

Definition root_user : User := mkUser 1 true.
Definition alice : User := mkUser 5 false.
Definition bob : User := mkUser 7 false.

Definition milk : Item := mkItem 1 "Buy milk" "2%" false 5.
Definition bread : Item := mkItem 2 "Buy bread" "rye" true 7.

Definition empty_store : Store := mkStore [] [] 1.
Definition one_item_store : Store := mkStore [root_user; alice; bob] [milk] 2.
Definition two_item_store : Store := mkStore [root_user; alice; bob] [milk; bread] 3.

Definition milk_payload : ItemBase := mkItemBase "Buy milk" "2%" false.
Definition blank_title_patch : ItemUpdate := mkItemUpdate (Some "") None (Some false).
Definition accept_base (_ : ItemBase) : bool := true.
Definition accept_update (_ : ItemUpdate) : bool := true.

Section Handlers.

(** [ItemBase.model_validate] and [ItemUpdate.model_validate]: the model
    classes live in [src.resources.models]; whether a payload passes is
    left to them. *)
Variable validate_base : ItemBase -> bool.
Variable validate_update : ItemUpdate -> bool.

(** ** The handlers *)

Definition create_item (uid : Z) (current_user : User) (item : ItemBase)
  : Session Response :=
  raise_if (not_allowed current_user uid) Forbidden ;;
  raise_if (negb (validate_base item)) ValidationError ;;
  user_db <- session_get_user uid ;;
  match user_db with
  | None => raise (UserNotFound uid)
  | Some user_db =>
      new_item <- session_insert (b_title item) (b_description item)
                                 (b_done item) (u_id user_db) ;;
      ret (JSONResponse 201 "Item created successfully!" (ItemPayload new_item))
  end.

Definition get_items (current_user : User) (offset limit : Z)
  : Session Response :=
  raise_if (negb (is_admin current_user)) Forbidden ;;
  page <- select_items_page offset limit ;;
  match page with
  | [] => ret (EmptyResponse 204)
  | _ => ret (JSONResponse 200 "Items retrieved successfully!" (ItemsPayload page))
  end.

Definition get_user_items (uid : Z) (current_user : User) (offset limit : Z)
  : Session Response :=
  raise_if (not_allowed current_user uid) Forbidden ;;
  user <- session_get_user uid ;;
  match user with
  | None => raise (UserNotFound uid)
  | Some user =>
      owned <- user_items user ;;
      match owned with
      | [] => ret (EmptyResponse 204)
      | _ =>
          ret (JSONResponse 200 "Items retrieved successfully!"
                 (ItemsPayload (py_slice owned offset (offset + limit))))
      end
  end.

Definition get_item (uid item_id : Z) (current_user : User)
  : Session Response :=
  raise_if (not_allowed current_user uid) Forbidden ;;
  user <- session_get_user uid ;;
  match user with
  | None => raise (UserNotFound uid)
  | Some _ =>
      item <- select_item_first item_id uid ;;
      match item with
      | None => raise (ItemNotFound item_id uid)
      | Some item =>
          ret (JSONResponse 200 "Item retrieved successfully!" (ItemPayload item))
      end
  end.

(** The three assignments of [patch_item] on the loaded row. *)
Definition merge_update (item_db : Item) (item : ItemUpdate) : Item :=
  let t := if truthy (p_title item)
           then match p_title item with Some x => x | None => title item_db end
           else title item_db in
  let d := if truthy (p_description item)
           then match p_description item with Some x => x | None => description item_db end
           else description item_db in
  let dn := match p_done item with Some b => b | None => done item_db end in
  mkItem (id item_db) t d dn (user_id item_db).

Definition patch_item (uid item_id : Z) (current_user : User) (item : ItemUpdate)
  : Session Response :=
  raise_if (not_allowed current_user uid) Forbidden ;;
  user <- session_get_user uid ;;
  match user with
  | None => raise (UserNotFound uid)
  | Some _ =>
      item_db <- select_item_first item_id uid ;;
      match item_db with
      | None => raise (ItemNotFound item_id uid)
      | Some item_db =>
          raise_if (negb (validate_update item)) ValidationError ;;
          item_db' <- session_update (merge_update item_db item) ;;
          ret (JSONResponse 200 "Item patched successfully!" (ItemPayload item_db'))
      end
  end.

Definition delete_item (uid item_id : Z) (current_user : User)
  : Session Response :=
  raise_if (not_allowed current_user uid) Forbidden ;;
  user <- session_get_user uid ;;
  match user with
  | None => raise (UserNotFound uid)
  | Some _ =>
      item <- select_item_first item_id uid ;;
      match item with
      | None => raise (ItemNotFound item_id uid)
      | Some item =>
          session_delete item ;;
          ret (JSONResponse 200 "Item deleted successfully!" NoPayload)
      end
  end.

(** ** The router *)

Inductive Request :=
| CreateItem (uid : Z) (item : ItemBase)
| ListAllItems (offset limit : Z)
| ListUserItems (uid : Z) (offset limit : Z)
| GetItem (uid item_id : Z)
| PatchItem (uid item_id : Z) (item : ItemUpdate)
| DeleteItem (uid item_id : Z).

Definition router (current_user : User) (r : Request) : Session Response :=
  match r with
  | CreateItem uid item => create_item uid current_user item
  | ListAllItems offset limit => get_items current_user offset limit
  | ListUserItems uid offset limit => get_user_items uid current_user offset limit
  | GetItem uid item_id => get_item uid item_id current_user
  | PatchItem uid item_id item => patch_item uid item_id current_user item
  | DeleteItem uid item_id => delete_item uid item_id current_user
  end.

(** The [user_id] path parameter of a route, when it has one. *)
Definition scope_of (r : Request) : option Z :=
  match r with
  | CreateItem uid _ => Some uid
  | ListAllItems _ _ => None
  | ListUserItems uid _ _ => Some uid
  | GetItem uid _ => Some uid
  | PatchItem uid _ _ => Some uid
  | DeleteItem uid _ => Some uid
  end.

(** The routes registered with [@router.get]. *)
Definition is_get (r : Request) : bool :=
  match r with
  | ListAllItems _ _ | ListUserItems _ _ _ | GetItem _ _ => true
  | CreateItem _ _ | PatchItem _ _ _ | DeleteItem _ _ => false
  end.

(** The items a response carries under its "item" or "items" key. *)
Definition payload_items (resp : Response) : list Item :=
  match resp with
  | JSONResponse _ _ (ItemPayload it) => [it]
  | JSONResponse _ _ (ItemsPayload l) => l
  | JSONResponse _ _ NoPayload => []
  | EmptyResponse _ => []
  end.

(** The items a client reads off a run: none from a 204 or an error. *)
Definition listed (run : Outcome Response * Store) : list Item :=
  match fst run with
  | Return resp => payload_items resp
  | Raise _ => []
  end.

(** Requests served one after the other, each with its caller. *)
Definition serve (reqs : list (User * Request)) (s : Store) : Store :=
  fold_left (fun st cr => snd (router (fst cr) (snd cr) st)) reqs s.

(** A patch payload that supplies nothing the handler applies. *)
Definition applies_nothing (item : ItemUpdate) : bool :=
  negb (truthy (p_title item)) && negb (truthy (p_description item)) &&
  match p_done item with None => true | Some _ => false end.

(** * Properties *)

(** ** Lists, slices and pages *)

Lemma offset_limit_nil_iff {A} (offset limit : Z) (rows : list A) :
  0 <= offset -> 1 <= limit ->
  offset_limit offset limit rows = [] <-> Z.of_nat (List.length rows) <= offset.
Proof.
  intros Ho Hl. unfold offset_limit. split.
  - intros H.
    destruct (skipn (Z.to_nat offset) rows) eqn:E.
    + apply skipn_all_iff in E. lia.
    + destruct (Z.to_nat limit) eqn:El; [lia | discriminate].
  - intros H. rewrite skipn_all2 by lia. apply firstn_nil.
Qed.

Lemma py_slice_page {A} (l : list A) (offset limit : Z) :
  0 <= offset -> 1 <= limit ->
  py_slice l offset (offset + limit) = offset_limit offset limit l.
Proof.
  intros Ho Hl. unfold py_slice, offset_limit, slice_index.
  destruct (Z.ltb_spec offset 0); [lia|].
  destruct (Z.ltb_spec (offset + limit) 0); [lia|].
  set (n := Z.of_nat (List.length l)).
  destruct (Z_le_gt_dec n offset) as [Hge | Hlt].
  - rewrite !Z.min_r by lia.
    replace (Z.to_nat (n - n)) with 0%nat by lia.
    assert (E : skipn (Z.to_nat offset) l = []) by (apply skipn_all2; lia).
    rewrite E, firstn_nil. reflexivity.
  - rewrite (Z.min_l offset n) by lia.
    destruct (Z_le_gt_dec (offset + limit) n) as [Hin | Hout].
    + rewrite Z.min_l by lia. f_equal. lia.
    + rewrite Z.min_r by lia.
      rewrite !firstn_all2; trivial; rewrite length_skipn; lia.
Qed.

Lemma find_app_miss {A} (f : A -> bool) (l : list A) (x : A) :
  (forall y, In y l -> f y = false) -> find f (l ++ [x]) = find f [x].
Proof.
  induction l as [| a l IH]; intros H; simpl; [reflexivity|].
  rewrite (H a) by (left; reflexivity).
  apply IH. intros y Hy. apply H. right. exact Hy.
Qed.

(** ** Primary keys *)

Lemma unique_ids_head (it : Item) (rest : list Item) :
  unique_ids (it :: rest) = true ->
  (forall r, In r rest -> id r <> id it) /\ unique_ids rest = true.
Proof.
  simpl. intros H. apply andb_true_iff in H. destruct H as [H1 H2].
  split; [| exact H2].
  intros r Hr. rewrite forallb_forall in H1. specialize (H1 r Hr).
  apply negb_true_iff in H1. apply Z.eqb_neq. exact H1.
Qed.

Lemma unique_ids_inj (l : list Item) (a b : Item) :
  unique_ids l = true -> In a l -> In b l -> id a = id b -> a = b.
Proof.
  induction l as [| x l IH]; intros Hu Ha Hb Hid; [contradiction|].
  apply unique_ids_head in Hu. destruct Hu as [Hfresh Hu].
  destruct Ha as [-> | Ha], Hb as [-> | Hb].
  - reflexivity.
  - exfalso. apply (Hfresh b Hb). symmetry. exact Hid.
  - exfalso. apply (Hfresh a Ha). exact Hid.
  - apply IH; assumption.
Qed.

Lemma unique_ids_snoc (l : list Item) (x : Item) :
  unique_ids l = true -> (forall r, In r l -> id r <> id x) ->
  unique_ids (l ++ [x]) = true.
Proof.
  induction l as [| a l IH]; intros Hu Hx; [reflexivity|].
  apply unique_ids_head in Hu. destruct Hu as [Hfresh Hu].
  simpl. apply andb_true_iff. split.
  - apply forallb_forall. intros r Hr. apply negb_true_iff, Z.eqb_neq.
    apply in_app_or in Hr. destruct Hr as [Hr | [<- | []]].
    + apply Hfresh. exact Hr.
    + intros E. apply (Hx a); [left; reflexivity | symmetry; exact E].
  - apply IH; [exact Hu|]. intros r Hr. apply Hx. right. exact Hr.
Qed.

Lemma unique_ids_filter (f : Item -> bool) (l : list Item) :
  unique_ids l = true -> unique_ids (filter f l) = true.
Proof.
  induction l as [| a l IH]; intros Hu; [reflexivity|].
  apply unique_ids_head in Hu. destruct Hu as [Hfresh Hu].
  simpl. destruct (f a); [| apply IH; exact Hu].
  simpl. apply andb_true_iff. split; [| apply IH; exact Hu].
  apply forallb_forall. intros r Hr. apply filter_In in Hr.
  apply negb_true_iff, Z.eqb_neq, Hfresh, Hr.
Qed.

Lemma unique_ids_map (g : Item -> Item) (l : list Item) :
  (forall r, id (g r) = id r) -> unique_ids (map g l) = unique_ids l.
Proof.
  intros Hg. induction l as [| a l IH]; [reflexivity|].
  simpl. rewrite IH, Hg. f_equal.
  clear IH. induction l as [| b l IHl]; [reflexivity|].
  simpl. rewrite IHl, Hg. reflexivity.
Qed.

(** ** Running a handler *)

Ltac unfold_handlers :=
  unfold router, create_item, get_items, get_user_items, get_item,
         patch_item, delete_item.

Lemma bind_raise_if {B} (c : bool) (e : HTTPException) (k : unit -> Session B) s :
  bind (raise_if c e) k s = if c then (Raise e, s) else k tt s.
Proof. unfold bind, raise_if. destruct c; reflexivity. Qed.

Lemma bind_get_user {B} (uid : Z) (k : option User -> Session B) s :
  bind (session_get_user uid) k s = k (find (fun u => u_id u =? uid) (users s)) s.
Proof. reflexivity. Qed.

Lemma bind_select_first {B} (item_id uid : Z) (k : option Item -> Session B) s :
  bind (select_item_first item_id uid) k s =
  k (find (fun it => (id it =? item_id) && (user_id it =? uid)) (items s)) s.
Proof. reflexivity. Qed.

Lemma bind_select_page {B} (offset limit : Z) (k : list Item -> Session B) s :
  bind (select_items_page offset limit) k s = k (offset_limit offset limit (items s)) s.
Proof. reflexivity. Qed.

Lemma bind_user_items {B} (u : User) (k : list Item -> Session B) s :
  bind (user_items u) k s = k (owned_by (u_id u) s) s.
Proof. reflexivity. Qed.

Lemma bind_insert {B} t d dn uid (k : Item -> Session B) s :
  bind (session_insert t d dn uid) k s =
  k (mkItem (next_id s) t d dn uid)
    (mkStore (users s) (items s ++ [mkItem (next_id s) t d dn uid]) (next_id s + 1)).
Proof. reflexivity. Qed.

Lemma bind_update {B} (it : Item) (k : Item -> Session B) s :
  bind (session_update it) k s =
  k it (mkStore (users s)
                (map (fun r => if id r =? id it then it else r) (items s))
                (next_id s)).
Proof. reflexivity. Qed.

Lemma bind_delete {B} (it : Item) (k : unit -> Session B) s :
  bind (session_delete it) k s =
  k tt (mkStore (users s)
                (filter (fun r => negb (id r =? id it)) (items s))
                (next_id s)).
Proof. reflexivity. Qed.

Lemma run_ret {A} (a : A) s : ret a s = (Return a, s).
Proof. reflexivity. Qed.

Lemma run_raise {A} (e : HTTPException) s : @raise A e s = (Raise e, s).
Proof. reflexivity. Qed.

Create Rewrite HintDb session.
#[local] Hint Rewrite @bind_raise_if @bind_get_user @bind_select_first
  @bind_select_page @bind_user_items @bind_insert @bind_update @bind_delete
  @run_ret @run_raise : session.

(** Steps through the session calls of a handler. *)
Ltac step := unfold_handlers; repeat (autorewrite with session; cbv beta iota).

(** Case analysis on every test a handler still branches on. *)
Ltac split_tests :=
  repeat match goal with
         | |- context [match ?x with _ => _ end] => destruct x eqn:?; simpl
         end.

Lemma not_allowed_false (current_user : User) (uid : Z) :
  not_allowed current_user uid = false <->
  is_admin current_user = true \/ u_id current_user = uid.
Proof.
  unfold not_allowed.
  destruct (is_admin current_user), (Z.eqb_spec (u_id current_user) uid);
    simpl; intuition congruence.
Qed.

Lemma not_allowed_true (current_user : User) (uid : Z) :
  not_allowed current_user uid = true <->
  is_admin current_user = false /\ u_id current_user <> uid.
Proof.
  unfold not_allowed.
  destruct (is_admin current_user), (Z.eqb_spec (u_id current_user) uid);
    simpl; intuition congruence.
Qed.

(** A caller the guard turns away gets the 403 and nothing else happens. *)
Lemma router_rejects (current_user : User) (r : Request) (uid : Z) (s : Store) :
  scope_of r = Some uid -> not_allowed current_user uid = true ->
  router current_user r s = (Raise Forbidden, s).
Proof.
  intros Hsc Hna.
  destruct r; simpl in Hsc; try discriminate;
    injection Hsc as ->; step; rewrite Hna; reflexivity.
Qed.

(** A caller the guard lets through never sees the 403. *)
Lemma router_admits (current_user : User) (r : Request) (uid : Z) (s : Store) :
  scope_of r = Some uid -> not_allowed current_user uid = false ->
  fst (router current_user r s) <> Raise Forbidden /\
  http_status (fst (router current_user r s)) <> 403.
Proof.
  intros Hsc Hna.
  destruct r; simpl in Hsc; try discriminate;
    injection Hsc as ->; step; rewrite Hna;
    repeat (split_tests; step); split; simpl; (discriminate || lia).
Qed.

(** ** The store invariant *)

Lemma store_ok_iff (s : Store) :
  store_ok s = true <->
  unique_ids (items s) = true /\ (forall it, In it (items s) -> id it < next_id s).
Proof.
  unfold store_ok. rewrite andb_true_iff, forallb_forall.
  split; intros [Hu Hb]; (split; [exact Hu|]); intros it Hit;
    specialize (Hb it Hit); apply Z.ltb_lt; exact Hb.
Qed.

Lemma merge_update_key (item_db : Item) (item : ItemUpdate) :
  item_key (merge_update item_db item) = item_key item_db.
Proof. reflexivity. Qed.

(** Rewriting the row of a key in place leaves every key where it was. *)
Lemma update_keeps_keys (l : list Item) (it0 it' : Item) :
  unique_ids l = true -> In it0 l -> item_key it' = item_key it0 ->
  map item_key (map (fun r => if id r =? id it' then it' else r) l) =
  map item_key l.
Proof.
  intros Hu Hin Hk. rewrite map_map. apply map_ext_in. intros r Hr.
  destruct (Z.eqb_spec (id r) (id it')) as [E | _]; [| reflexivity].
  injection Hk as Hid Huid.
  assert (r = it0) as -> by (apply (unique_ids_inj l); congruence).
  unfold item_key. congruence.
Qed.

Lemma empty_store_ok : store_ok empty_store = true.
Proof. reflexivity. Qed.

(** Every request leaves a well-formed store well-formed. *)
Lemma router_store_ok (current_user : User) (r : Request) (s : Store) :
  store_ok s = true -> store_ok (snd (router current_user r s)) = true.
Proof.
  intros Hok. pose proof Hok as Hok'. apply store_ok_iff in Hok'.
  destruct Hok' as [Hu Hb].
  destruct r; step; repeat (split_tests; step); simpl; trivial;
    apply store_ok_iff; simpl.
  - (* create: the new key is above every key in use *)
    split.
    + apply unique_ids_snoc; [exact Hu|]. intros r Hr. simpl.
      specialize (Hb r Hr). lia.
    + intros it Hit. apply in_app_or in Hit.
      destruct Hit as [Hit | [<- | []]]; [specialize (Hb it Hit) |]; simpl; lia.
  - (* patch: the row keeps its key *)
    match goal with
    | H : find _ (items s) = Some ?x |- _ =>
        apply find_some in H; destruct H as [Hin _]; rename x into item_db
    end.
    split.
    + rewrite unique_ids_map; [exact Hu|].
      intros r. destruct (Z.eqb_spec (id r) (id item_db)); simpl; congruence.
    + intros it Hit. apply in_map_iff in Hit. destruct Hit as [r [<- Hr]].
      destruct (Z.eqb_spec (id r) (id item_db)).
      * simpl. apply (Hb item_db Hin).
      * apply (Hb r Hr).
  - (* delete: fewer rows *)
    split.
    + apply unique_ids_filter. exact Hu.
    + intros it Hit. apply filter_In in Hit. apply Hb, Hit.
Qed.

(** ** Authorization *)

(** C1: on every route scoped to a [user_id] (create, list by user, get,
    patch, delete) the caller gets past the guard exactly when
    [is_admin] holds or the caller's id is the target [user_id]; a
    non-admin caller with another id is answered [Forbidden], status
    403, and no other caller ever is. *)
Theorem ownership_or_admin (current_user : User) (r : Request) (uid : Z) (s : Store) :
  scope_of r = Some uid ->
  (fst (router current_user r s) <> Raise Forbidden <->
   is_admin current_user = true \/ u_id current_user = uid) /\
  (http_status (fst (router current_user r s)) = 403 <->
   ~ (is_admin current_user = true \/ u_id current_user = uid)) /\
  (is_admin current_user = false -> u_id current_user <> uid ->
   fst (router current_user r s) = Raise Forbidden).
Proof.
  intros Hsc.
  destruct (not_allowed current_user uid) eqn:Hna.
  - pose proof (router_rejects current_user r uid s Hsc Hna) as Hrun.
    apply not_allowed_true in Hna. destruct Hna as [Hadm Hid].
    rewrite Hrun. simpl.
    repeat split; try tauto; try congruence; intros; try reflexivity;
      intuition congruence.
  - destruct (router_admits current_user r uid s Hsc Hna) as [Hne Hst].
    apply not_allowed_false in Hna.
    repeat split; try tauto.
    intros Hadm Hid. exfalso. destruct Hna; congruence.
Qed.

(** C10: the guard runs before the session is touched.  A non-admin
    caller whose id is not the target [user_id] is answered [Forbidden]
    on every user-scoped route whatever the store holds, so also when
    the target user or the item is missing: the answer is never a 404,
    and the store is left as it was. *)
Theorem forbidden_before_not_found (current_user : User) (r : Request) (uid : Z) :
  scope_of r = Some uid ->
  is_admin current_user = false -> u_id current_user <> uid ->
  forall s : Store,
    router current_user r s = (Raise Forbidden, s) /\
    http_status (fst (router current_user r s)) <> 404 /\
    (find (fun u => u_id u =? uid) (users s) = None ->
     fst (router current_user r s) <> Raise (UserNotFound uid)).
Proof.
  intros Hsc Hadm Hid s.
  assert (Hna : not_allowed current_user uid = true)
    by (apply not_allowed_true; split; assumption).
  rewrite (router_rejects current_user r uid s Hsc Hna). simpl.
  repeat split; [lia | discriminate].
Qed.

(** ** Listings *)

(** C2, as the code has it: for an admin caller, [offset >= 0] and
    [limit >= 1], [get_items] answers 204 exactly when the page cut out
    by offset and limit is empty, that is when the table has at most
    [offset] rows; otherwise it answers 200 with that page, the rows in
    storage order after skipping [offset] and keeping at most [limit]. *)
Theorem get_items_page (current_user : User) (offset limit : Z) (s : Store) :
  is_admin current_user = true -> 0 <= offset -> 1 <= limit ->
  (http_status (fst (get_items current_user offset limit s)) = 204 <->
   Z.of_nat (List.length (items s)) <= offset) /\
  (Z.of_nat (List.length (items s)) <= offset ->
   get_items current_user offset limit s = (Return (EmptyResponse 204), s)) /\
  (offset < Z.of_nat (List.length (items s)) ->
   get_items current_user offset limit s =
   (Return (JSONResponse 200 "Items retrieved successfully!"
              (ItemsPayload (firstn (Z.to_nat limit)
                                    (skipn (Z.to_nat offset) (items s))))), s)).
Proof.
  intros Hadm Ho Hl.
  pose proof (offset_limit_nil_iff offset limit (items s) Ho Hl) as Hnil.
  unfold get_items. autorewrite with session. rewrite Hadm. simpl.
  autorewrite with session.
  fold (offset_limit offset limit (items s)).
  destruct (offset_limit offset limit (items s)) as [| it page] eqn:E;
    autorewrite with session; simpl.
  - assert (Hlen : Z.of_nat (List.length (items s)) <= offset)
      by (apply Hnil; reflexivity).
    repeat split; trivial. intros Hlt. lia.
  - assert (Hlen : ~ Z.of_nat (List.length (items s)) <= offset)
      by (intros H; apply Hnil in H; discriminate).
    repeat split; lia.
Qed.

(** C3: for a caller the guard lets through and an existing user,
    [get_user_items] answers 204 exactly when the user owns no item at
    all, whatever offset and limit are; when the user owns items, the
    answer is 200 with the slice [offset : offset + limit] of all the
    items of the user, which is the empty list as soon as [offset] is at
    or past their number. *)
Theorem get_user_items_no_content (uid : Z) (current_user u : User)
        (offset limit : Z) (s : Store) :
  not_allowed current_user uid = false ->
  find (fun u => u_id u =? uid) (users s) = Some u ->
  (http_status (fst (get_user_items uid current_user offset limit s)) = 204 <->
   owned_by uid s = []) /\
  (owned_by uid s <> [] -> 0 <= offset -> 1 <= limit ->
   get_user_items uid current_user offset limit s =
   (Return (JSONResponse 200 "Items retrieved successfully!"
              (ItemsPayload (firstn (Z.to_nat limit)
                                    (skipn (Z.to_nat offset) (owned_by uid s))))), s)) /\
  (owned_by uid s <> [] -> 0 <= offset -> 1 <= limit ->
   Z.of_nat (List.length (owned_by uid s)) <= offset ->
   get_user_items uid current_user offset limit s =
   (Return (JSONResponse 200 "Items retrieved successfully!" (ItemsPayload [])), s)).
Proof.
  intros Hna Hfind.
  assert (Hu : u_id u = uid).
  { apply find_some in Hfind. destruct Hfind as [_ H]. apply Z.eqb_eq, H. }
  unfold get_user_items. autorewrite with session. rewrite Hna, Hfind.
  autorewrite with session. rewrite Hu.
  destruct (owned_by uid s) as [| it owned] eqn:E; autorewrite with session;
    cbn [fst http_status].
  - repeat split; trivial; intros H; contradiction.
  - split; [split; intros H; discriminate H |].
    split.
    + intros _ Ho Hl. rewrite py_slice_page by assumption. reflexivity.
    + intros _ Ho Hl Hlen. rewrite py_slice_page by assumption.
      unfold offset_limit.
      assert (Hs : skipn (Z.to_nat offset) (it :: owned) = [])
        by (apply skipn_all2; lia).
      rewrite Hs, firstn_nil. reflexivity.
Qed.

(** ** Patching *)

(** After the row of [it'] is rewritten, looking up the key and owner the
    row was loaded with finds [it']. *)
Lemma find_after_update (l : list Item) (item_id uid : Z) (item_db it' : Item) :
  find (fun it => (id it =? item_id) && (user_id it =? uid)) l = Some item_db ->
  item_key it' = item_key item_db ->
  find (fun it => (id it =? item_id) && (user_id it =? uid))
       (map (fun r => if id r =? id it' then it' else r) l) = Some it'.
Proof.
  intros Hfind Hk. injection Hk as Hid Huid.
  assert (Hmatch : (id it' =? item_id) && (user_id it' =? uid) = true).
  { apply find_some in Hfind. destruct Hfind as [_ H]. rewrite Hid, Huid. exact H. }
  induction l as [| r l IH]; [discriminate|].
  simpl in *.
  destruct (Z.eqb_spec (id r) (id it')) as [E | NE].
  - rewrite Hmatch. reflexivity.
  - destruct ((id r =? item_id) && (user_id r =? uid)) eqn:Hr.
    + exfalso. injection Hfind as ->. apply NE. symmetry. exact Hid.
    + apply IH. exact Hfind.
Qed.

Lemma truthy_some (t : string) : t <> ""%string -> truthy (Some t) = true.
Proof. destruct t; [congruence | reflexivity]. Qed.

(** C4: a patch that reaches an existing item with a payload the model
    accepts answers 200 with the merged row and stores it.  The title of
    the merged row is the supplied one only when that is a non-empty
    string; a missing or empty title leaves the stored title as it was.
    The description follows the same rule.  [done] takes the supplied
    value whenever one is supplied, [false] included. *)
Theorem patch_item_merge (uid item_id : Z) (current_user u : User)
        (item : ItemUpdate) (item_db : Item) (s : Store) :
  not_allowed current_user uid = false ->
  find (fun u => u_id u =? uid) (users s) = Some u ->
  find (fun it => (id it =? item_id) && (user_id it =? uid)) (items s) = Some item_db ->
  validate_update item = true ->
  exists (it' : Item) (s' : Store),
    patch_item uid item_id current_user item s =
    (Return (JSONResponse 200 "Item patched successfully!" (ItemPayload it')), s') /\
    find (fun it => (id it =? item_id) && (user_id it =? uid)) (items s') = Some it' /\
    (forall t, p_title item = Some t -> t <> ""%string -> title it' = t) /\
    (p_title item = None \/ p_title item = Some ""%string ->
     title it' = title item_db) /\
    (forall d, p_description item = Some d -> d <> ""%string -> description it' = d) /\
    (p_description item = None \/ p_description item = Some ""%string ->
     description it' = description item_db) /\
    (forall b, p_done item = Some b -> done it' = b) /\
    (p_done item = None -> done it' = done item_db).
Proof.
  intros Hna Hu Hfind Hval.
  exists (merge_update item_db item).
  eexists. split.
  - unfold patch_item. autorewrite with session. rewrite Hna, Hu.
    autorewrite with session. rewrite Hfind.
    autorewrite with session. rewrite Hval. cbn [negb].
    autorewrite with session. reflexivity.
  - cbn [items]. split.
    + apply find_after_update with (item_db := item_db);
        [exact Hfind | apply merge_update_key].
    + unfold merge_update. cbn [title description done].
      repeat split.
      * intros t Ht Hne. rewrite Ht, (truthy_some t Hne). reflexivity.
      * intros [-> | ->]; reflexivity.
      * intros d Hd Hne. rewrite Hd, (truthy_some d Hne). reflexivity.
      * intros [-> | ->]; reflexivity.
      * intros b ->. reflexivity.
      * intros ->. reflexivity.
Qed.

(** ** Looking up an item *)

(** A key held by a row of another owner is not found under [uid]. *)
Lemma lookup_other_owner (s : Store) (it : Item) (uid : Z) :
  store_ok s = true -> In it (items s) -> user_id it <> uid ->
  find (fun r => (id r =? id it) && (user_id r =? uid)) (items s) = None.
Proof.
  intros Hok Hin Hne. apply store_ok_iff in Hok. destruct Hok as [Hu _].
  destruct (find _ (items s)) as [x |] eqn:E; [| reflexivity].
  exfalso. apply find_some in E. destruct E as [Hx Hm].
  apply andb_true_iff in Hm. destruct Hm as [Hid Huid].
  apply Z.eqb_eq in Hid. apply Z.eqb_eq in Huid.
  assert (x = it) by (apply (unique_ids_inj (items s)); assumption).
  congruence.
Qed.

(** C5: the lookup of [get_item], [patch_item] and [delete_item] asks
    for the item id and the owning user id together.  When the row with
    [item_id] belongs to a user other than the requested [user_id], each
    of the three answers 404 to a caller the guard lets through, the
    item-not-found 404 when the requested user exists, and leaves the
    store as it was. *)
Theorem item_of_other_user_not_found (uid item_id : Z) (current_user : User)
        (it : Item) (item : ItemUpdate) (s : Store) :
  store_ok s = true ->
  not_allowed current_user uid = false ->
  In it (items s) -> id it = item_id -> user_id it <> uid ->
  let missing (run : Outcome Response * Store) :=
      snd run = s /\ http_status (fst run) = 404 /\
      (find (fun u => u_id u =? uid) (users s) <> None ->
       fst run = Raise (ItemNotFound item_id uid)) in
  missing (get_item uid item_id current_user s) /\
  missing (patch_item uid item_id current_user item s) /\
  missing (delete_item uid item_id current_user s).
Proof.
  intros Hok Hna Hin Hid Hne missing. subst item_id.
  pose proof (lookup_other_owner s it uid Hok Hin Hne) as Hnone.
  unfold missing, get_item, patch_item, delete_item.
  autorewrite with session. rewrite Hna.
  destruct (find (fun u => u_id u =? uid) (users s)) as [u |];
    autorewrite with session; try rewrite Hnone; autorewrite with session;
    cbn [fst snd http_status exc_status];
    repeat split; trivial; intros H; congruence.
Qed.

(** ** Creating *)

(** C6: when no user has the target [user_id], [create_item] called by a
    caller the guard lets through never answers with a created item and
    leaves the store as it was, so no row is added; with a payload the
    model accepts it raises the user-not-found 404. *)
Theorem create_item_unknown_user (uid : Z) (current_user : User)
        (item : ItemBase) (s : Store) :
  not_allowed current_user uid = false ->
  find (fun u => u_id u =? uid) (users s) = None ->
  snd (create_item uid current_user item s) = s /\
  (forall resp, fst (create_item uid current_user item s) <> Return resp) /\
  (validate_base item = true ->
   create_item uid current_user item s = (Raise (UserNotFound uid), s) /\
   http_status (fst (create_item uid current_user item s)) = 404).
Proof.
  intros Hna Hnone. unfold create_item.
  autorewrite with session. rewrite Hna.
  destruct (validate_base item); cbn [negb];
    autorewrite with session; try rewrite Hnone; autorewrite with session;
    cbn [fst snd]; repeat split; try discriminate.
Qed.

(** What a successful [create_item] went through. *)
Lemma create_item_success (uid : Z) (current_user : User) (item : ItemBase)
      (resp : Response) (s s' : Store) :
  create_item uid current_user item s = (Return resp, s') ->
  let row := mkItem (next_id s) (b_title item) (b_description item)
                    (b_done item) uid in
  (exists u, find (fun u => u_id u =? uid) (users s) = Some u) /\
  resp = JSONResponse 201 "Item created successfully!" (ItemPayload row) /\
  s' = mkStore (users s) (items s ++ [row]) (next_id s + 1).
Proof.
  unfold create_item. autorewrite with session.
  destruct (not_allowed current_user uid); [discriminate|].
  destruct (validate_base item); cbn [negb]; [| discriminate].
  autorewrite with session.
  destruct (find (fun u => u_id u =? uid) (users s)) as [u |] eqn:Hu;
    autorewrite with session; [| discriminate].
  assert (Hid : u_id u = uid).
  { apply find_some in Hu. destruct Hu as [_ H]. apply Z.eqb_eq, H. }
  rewrite Hid. intros H. injection H as <- <-.
  repeat split. exists u. reflexivity.
Qed.

(** C7: after a [create_item] that succeeded on a well-formed store, a
    [get_item] for the same [user_id] and the id of the created item, by
    any caller the guard lets through, answers 200 with the created item:
    its title, description and done are those of the payload and its
    [user_id] is the target one. *)
Theorem create_then_get (uid : Z) (current_user reader : User) (item : ItemBase)
        (resp : Response) (s s' : Store) :
  store_ok s = true ->
  create_item uid current_user item s = (Return resp, s') ->
  not_allowed reader uid = false ->
  exists it : Item,
    resp = JSONResponse 201 "Item created successfully!" (ItemPayload it) /\
    get_item uid (id it) reader s' =
    (Return (JSONResponse 200 "Item retrieved successfully!" (ItemPayload it)), s') /\
    title it = b_title item /\ description it = b_description item /\
    done it = b_done item /\ user_id it = uid.
Proof.
  intros Hok Hrun Hna.
  apply create_item_success in Hrun. destruct Hrun as [[u Hu] [-> ->]].
  apply store_ok_iff in Hok. destruct Hok as [_ Hb].
  eexists. split; [reflexivity|]. cbn [id title description done user_id].
  split; [| repeat split].
  unfold get_item. autorewrite with session. rewrite Hna. cbn [users items].
  rewrite Hu. autorewrite with session. cbn [items].
  rewrite find_app_miss.
  - cbn [find id user_id]. rewrite !Z.eqb_refl. cbn [andb].
    autorewrite with session. reflexivity.
  - intros y Hy. specialize (Hb y Hy).
    apply andb_false_iff. left. apply Z.eqb_neq. lia.
Qed.

(** ** Deleting *)

(** What a successful [delete_item] went through. *)
Lemma delete_item_success (uid item_id : Z) (current_user : User)
      (resp : Response) (s s' : Store) :
  delete_item uid item_id current_user s = (Return resp, s') ->
  (exists u, find (fun u => u_id u =? uid) (users s) = Some u) /\
  s' = mkStore (users s)
               (filter (fun r => negb (id r =? item_id)) (items s))
               (next_id s).
Proof.
  unfold delete_item. autorewrite with session.
  destruct (not_allowed current_user uid); [discriminate|].
  destruct (find (fun u => u_id u =? uid) (users s)) as [u |] eqn:Hu;
    autorewrite with session; [| discriminate].
  destruct (find _ (items s)) as [it |] eqn:Hit;
    autorewrite with session; [| discriminate].
  apply find_some in Hit. destruct Hit as [_ Hm].
  apply andb_true_iff in Hm. destruct Hm as [Hid _]. apply Z.eqb_eq in Hid.
  rewrite Hid. intros H. injection H as _ <-.
  split; [exists u |]; reflexivity.
Qed.

(** C8: after a [delete_item] that succeeded, no row with that item id
    is left in the table, and a [get_item] with the same [user_id] and
    [item_id], by any caller the guard lets through, raises the
    item-not-found 404. *)
Theorem delete_then_get (uid item_id : Z) (current_user reader : User)
        (resp : Response) (s s' : Store) :
  delete_item uid item_id current_user s = (Return resp, s') ->
  not_allowed reader uid = false ->
  (forall r, In r (items s') -> id r <> item_id) /\
  get_item uid item_id reader s' = (Raise (ItemNotFound item_id uid), s') /\
  http_status (fst (get_item uid item_id reader s')) = 404.
Proof.
  intros Hrun Hna.
  apply delete_item_success in Hrun. destruct Hrun as [[u Hu] ->].
  assert (Hgone : forall r,
             In r (filter (fun r => negb (id r =? item_id)) (items s)) ->
             id r <> item_id).
  { intros r Hr. apply filter_In in Hr. destruct Hr as [_ Hr].
    apply negb_true_iff in Hr. apply Z.eqb_neq. exact Hr. }
  assert (Hget : get_item uid item_id reader
                   (mkStore (users s)
                      (filter (fun r => negb (id r =? item_id)) (items s))
                      (next_id s)) =
                 (Raise (ItemNotFound item_id uid),
                  mkStore (users s)
                      (filter (fun r => negb (id r =? item_id)) (items s))
                      (next_id s))).
  { unfold get_item. autorewrite with session. rewrite Hna. cbn [users items].
    rewrite Hu. autorewrite with session. cbn [items].
    destruct (find _ (filter _ (items s))) as [x |] eqn:Hx;
      autorewrite with session; [| reflexivity].
    exfalso. apply find_some in Hx. destruct Hx as [Hin Hm].
    apply andb_true_iff in Hm. destruct Hm as [Hid _]. apply Z.eqb_eq in Hid.
    apply (Hgone x Hin Hid). }
  cbn [items]. split; [exact Hgone |]. rewrite Hget. split; reflexivity.
Qed.

(** ** Keys and owners *)

(** A patch keeps the column of keys and owners; every other request
    keeps its rows as they are, drops some, or appends the created one. *)
Lemma router_keys (current_user : User) (r : Request) (s : Store) :
  store_ok s = true ->
  (forall uid item_id item, r = PatchItem uid item_id item ->
     map item_key (items (snd (router current_user r s))) =
     map item_key (items s)) /\
  (forall it', In it' (items (snd (router current_user r s))) ->
     In (item_key it') (map item_key (items s)) \/
     ((exists uid item, r = CreateItem uid item) /\ id it' = next_id s)).
Proof.
  intros Hok. apply store_ok_iff in Hok. destruct Hok as [Hu _].
  assert (Hpatch : forall item_db item,
             In item_db (items s) ->
             map item_key
                 (map (fun r => if id r =? id (merge_update item_db item)
                                then merge_update item_db item else r) (items s)) =
             map item_key (items s)).
  { intros item_db item Hin.
    apply update_keeps_keys with (it0 := item_db);
      [exact Hu | exact Hin | apply merge_update_key]. }
  destruct r; step; repeat (split_tests; step); cbn [snd items];
    (split; [intros ? ? ? E; try discriminate E | intros it' Hit']);
    try reflexivity; try (left; apply in_map; exact Hit').
  - (* create *)
    apply in_app_or in Hit'. destruct Hit' as [Hit' | [<- | []]].
    + left. apply in_map. exact Hit'.
    + right. split; [eauto | reflexivity].
  - (* patch, the column *)
    match goal with
    | H : find _ (items s) = Some _ |- _ => apply find_some in H; destruct H as [Hin _]
    end.
    apply Hpatch. exact Hin.
  - (* patch, row by row *)
    match goal with
    | H : find _ (items s) = Some _ |- _ => apply find_some in H; destruct H as [Hin _]
    end.
    left. rewrite <- (Hpatch _ item Hin). apply in_map. exact Hit'.
  - (* delete *)
    left. apply in_map. apply filter_In in Hit'. apply Hit'.
Qed.

(** C9: no request changes the id or the owner of an existing item.  On
    a well-formed store, an item that is in the table before a request
    and an item with the same id after it have the same [user_id]; every
    row after the request carries a pair of id and [user_id] that was in
    the table before, unless it is the row a create just added under the
    fresh key; and a patch leaves the column of ids and [user_id]s
    exactly as it was, so that it changes title, description and done
    at most. *)
Theorem keys_never_change (current_user : User) (r : Request) (s : Store) :
  store_ok s = true ->
  (forall it it', In it (items s) ->
     In it' (items (snd (router current_user r s))) ->
     id it' = id it -> user_id it' = user_id it) /\
  (forall it', In it' (items (snd (router current_user r s))) ->
     In (item_key it') (map item_key (items s)) \/
     ((exists uid item, r = CreateItem uid item) /\ id it' = next_id s)) /\
  (forall uid item_id item, r = PatchItem uid item_id item ->
     map item_key (items (snd (router current_user r s))) =
     map item_key (items s)).
Proof.
  intros Hok.
  destruct (router_keys current_user r s Hok) as [Hcol Hrows].
  apply store_ok_iff in Hok. destruct Hok as [Hu Hb].
  split; [| split; assumption].
  intros it it' Hin Hin' Hid.
  destruct (Hrows it' Hin') as [Hold | [_ Hnew]].
  - apply in_map_iff in Hold. destruct Hold as [x [Hk Hx]].
    injection Hk as Hxid Hxuid.
    assert (x = it) by (apply (unique_ids_inj (items s)); congruence).
    congruence.
  - specialize (Hb it Hin). lia.
Qed.

(** * Further properties of the handlers *)

(** ** Who may do what *)

(** X1: [get_items] is for admins only.  A caller that is not an admin
    is answered [Forbidden] whatever offset, limit and store are, and an
    admin never is: an admin gets the 204 or the 200 with the page.  The
    store is never changed. *)
Theorem get_items_admin_only (current_user : User) (offset limit : Z) (s : Store) :
  (is_admin current_user = false ->
   get_items current_user offset limit s = (Raise Forbidden, s)) /\
  (is_admin current_user = true ->
   get_items current_user offset limit s = (Return (EmptyResponse 204), s) \/
   exists it page,
     get_items current_user offset limit s =
     (Return (JSONResponse 200 "Items retrieved successfully!"
                (ItemsPayload (it :: page))), s)) /\
  snd (get_items current_user offset limit s) = s.
Proof.
  unfold get_items. autorewrite with session.
  destruct (is_admin current_user); cbn [negb]; autorewrite with session.
  - destruct (offset_limit offset limit (items s)) as [| it page];
      autorewrite with session; cbn [snd].
    + repeat split; [discriminate | intros _; left; reflexivity].
    + repeat split; [discriminate | intros _; right; eauto].
  - cbn [snd]. repeat split. discriminate.
Qed.

(** X7: the handlers read [current_user] in the guard only.  Two callers
    the guard both lets through, the owner and an admin say, get the same
    answer and leave the same store on every user-scoped route. *)
Theorem caller_only_guards (current_user other : User) (r : Request)
        (uid : Z) (s : Store) :
  scope_of r = Some uid ->
  not_allowed current_user uid = false -> not_allowed other uid = false ->
  router current_user r s = router other r s.
Proof.
  intros Hsc H1 H2.
  destruct r; simpl in Hsc; try discriminate; injection Hsc as ->;
    step; rewrite H1, H2; reflexivity.
Qed.

(** X8: the outcomes each route can have.  [create_item] raises
    [Forbidden], [ValidationError] or the user-not-found 404, or answers
    201 with one item; the listings answer 204 or 200 with a list, or
    raise [Forbidden], and the listing for one user also the
    user-not-found 404; [get_item], [patch_item] and [delete_item] raise
    [Forbidden] or one of the two 404s, [patch_item] also
    [ValidationError], or answer 200. *)
Theorem route_outcomes (current_user : User) (r : Request) (s : Store) :
  let o := fst (router current_user r s) in
  match r with
  | CreateItem uid _ =>
      o = Raise Forbidden \/ o = Raise ValidationError \/
      o = Raise (UserNotFound uid) \/
      exists it, o = Return (JSONResponse 201 "Item created successfully!"
                               (ItemPayload it))
  | ListAllItems _ _ =>
      o = Raise Forbidden \/ o = Return (EmptyResponse 204) \/
      exists l, o = Return (JSONResponse 200 "Items retrieved successfully!"
                              (ItemsPayload l))
  | ListUserItems uid _ _ =>
      o = Raise Forbidden \/ o = Raise (UserNotFound uid) \/
      o = Return (EmptyResponse 204) \/
      exists l, o = Return (JSONResponse 200 "Items retrieved successfully!"
                              (ItemsPayload l))
  | GetItem uid item_id =>
      o = Raise Forbidden \/ o = Raise (UserNotFound uid) \/
      o = Raise (ItemNotFound item_id uid) \/
      exists it, o = Return (JSONResponse 200 "Item retrieved successfully!"
                               (ItemPayload it))
  | PatchItem uid item_id _ =>
      o = Raise Forbidden \/ o = Raise (UserNotFound uid) \/
      o = Raise (ItemNotFound item_id uid) \/ o = Raise ValidationError \/
      exists it, o = Return (JSONResponse 200 "Item patched successfully!"
                               (ItemPayload it))
  | DeleteItem uid item_id =>
      o = Raise Forbidden \/ o = Raise (UserNotFound uid) \/
      o = Raise (ItemNotFound item_id uid) \/
      o = Return (JSONResponse 200 "Item deleted successfully!" NoPayload)
  end.
Proof.
  destruct r; step; repeat (split_tests; step); cbn [fst]; eauto 8.
Qed.

(** ** What a request leaves alone *)

(** X2: the three GET routes never write.  Whatever the caller and the
    parameters, [get_items], [get_user_items] and [get_item] leave the
    store exactly as they found it. *)
Theorem get_routes_read_only (current_user : User) (r : Request) (s : Store) :
  is_get r = true -> snd (router current_user r s) = s.
Proof.
  intros Hget.
  destruct r; simpl in Hget; try discriminate;
    step; repeat (split_tests; step); reflexivity.
Qed.

(** X3: a request that ends in an exception has written nothing: the
    store after it is the store before it, on every route. *)
Theorem failure_leaves_store (current_user : User) (r : Request)
        (e : HTTPException) (s : Store) :
  fst (router current_user r s) = Raise e ->
  snd (router current_user r s) = s.
Proof.
  destruct r; step; repeat (split_tests; step); cbn [fst snd];
    intros H; (reflexivity || discriminate H).
Qed.

(** X4: no route touches the user table. *)
Theorem users_never_change (current_user : User) (r : Request) (s : Store) :
  users (snd (router current_user r s)) = users s.
Proof.
  destruct r; step; repeat (split_tests; step); reflexivity.
Qed.


(** ** One user's items and another's *)

Lemma in_py_slice {A} (l : list A) (lo hi : Z) (x : A) :
  In x (py_slice l lo hi) -> In x l.
Proof.
  unfold py_slice. intros H.
  set (n := Z.to_nat (slice_index (Z.of_nat (List.length l)) lo)) in *.
  set (m := Z.to_nat (slice_index (Z.of_nat (List.length l)) hi -
                      slice_index (Z.of_nat (List.length l)) lo)) in *.
  rewrite <- (firstn_skipn n l). apply in_or_app. right.
  rewrite <- (firstn_skipn m (skipn n l)). apply in_or_app. left. exact H.
Qed.

(** X5: a response never carries an item of another user than the one
    the route is scoped to.  Every item in the payload of a user-scoped
    route has the [user_id] of the path; so whatever a caller who is not
    an admin is sent, on any route, is an item of the caller's own. *)
Theorem payload_stays_in_scope (current_user : User) (r : Request)
        (resp : Response) (s : Store) :
  fst (router current_user r s) = Return resp ->
  (forall uid it, scope_of r = Some uid ->
     In it (payload_items resp) -> user_id it = uid) /\
  (is_admin current_user = false ->
   forall it, In it (payload_items resp) -> user_id it = u_id current_user).
Proof.
  intros Hrun.
  assert (Hscope : forall uid it, scope_of r = Some uid ->
                     In it (payload_items resp) -> user_id it = uid).
  { revert Hrun.
    destruct r; step; repeat (split_tests; step); cbn [fst];
      intros Hrun; try discriminate Hrun; injection Hrun as <-;
      intros uid' it' Hsc Hin; simpl in Hsc; try discriminate Hsc;
      injection Hsc as <-; cbn [payload_items] in Hin;
      try (simpl in Hin; contradiction);
      repeat match goal with
             | H : find _ _ = Some _ |- _ => apply find_some in H; destruct H as [? H]
             end.
    - (* create *)
      destruct Hin as [<- | []]. cbn [user_id]. apply Z.eqb_eq. assumption.
    - (* list by user *)
      apply in_py_slice in Hin.
      match goal with
      | H : owned_by _ s = _ |- _ => rewrite <- H in Hin
      end.
      apply filter_In in Hin. destruct Hin as [_ Hin].
      apply Z.eqb_eq in Hin. rewrite Hin. apply Z.eqb_eq. assumption.
    - (* get *)
      destruct Hin as [<- | []].
      match goal with
      | H : _ && _ = true |- _ => apply andb_true_iff in H; destruct H as [_ H];
                                  apply Z.eqb_eq in H; exact H
      end.
    - (* patch *)
      destruct Hin as [<- | []]. cbn [merge_update user_id].
      match goal with
      | H : _ && _ = true |- _ => apply andb_true_iff in H; destruct H as [_ H];
                                  apply Z.eqb_eq in H; exact H
      end. }
  split; [exact Hscope|].
  intros Hadm it Hin.
  destruct (scope_of r) as [uid |] eqn:Hsc.
  - rewrite (Hscope uid it eq_refl Hin).
    destruct (not_allowed current_user uid) eqn:Hna.
    + rewrite (router_rejects current_user r uid s Hsc Hna) in Hrun.
      discriminate Hrun.
    + apply not_allowed_false in Hna. destruct Hna; congruence.
  - destruct r; simpl in Hsc; try discriminate Hsc.
    exfalso. revert Hrun. step. rewrite Hadm. discriminate.
Qed.

Lemma filter_filter_absorb {A} (f g : A -> bool) (l : list A) :
  (forall x, In x l -> g x = false -> f x = false) ->
  filter f (filter g l) = filter f l.
Proof.
  induction l as [| a l IH]; intros H; [reflexivity|].
  simpl. destruct (g a) eqn:Hg.
  - simpl. rewrite IH; [reflexivity|]. intros x Hx. apply H. right. exact Hx.
  - rewrite (H a (or_introl eq_refl) Hg).
    apply IH. intros x Hx. apply H. right. exact Hx.
Qed.

Lemma filter_map_absorb {A} (f : A -> bool) (g : A -> A) (l : list A) :
  (forall x, In x l -> g x = x \/ (f x = false /\ f (g x) = false)) ->
  filter f (map g l) = filter f l.
Proof.
  induction l as [| a l IH]; intros H; [reflexivity|].
  simpl. rewrite IH by (intros x Hx; apply H; right; exact Hx).
  destruct (H a (or_introl eq_refl)) as [-> | [-> ->]]; reflexivity.
Qed.

(** X6: a user-scoped request writes to the items of that user only.
    On a well-formed store the rows of every other user are, after the
    request, the same rows in the same order; so a caller who is not an
    admin cannot create, change or remove an item of someone else. *)
Theorem other_users_untouched (current_user : User) (r : Request) (s : Store) :
  store_ok s = true ->
  (forall uid other, scope_of r = Some uid -> other <> uid ->
     owned_by other (snd (router current_user r s)) = owned_by other s) /\
  (is_admin current_user = false ->
   forall other, other <> u_id current_user ->
     owned_by other (snd (router current_user r s)) = owned_by other s).
Proof.
  intros Hok. pose proof Hok as Hok'. apply store_ok_iff in Hok'.
  destruct Hok' as [Hu _].
  assert (Hscope : forall uid other, scope_of r = Some uid -> other <> uid ->
            owned_by other (snd (router current_user r s)) = owned_by other s).
  { intros uid other Hsc Hne. unfold owned_by.
    destruct r; simpl in Hsc; try discriminate Hsc; injection Hsc as ->;
      step; repeat (split_tests; step); cbn [snd items]; try reflexivity;
      repeat match goal with
             | H : find _ _ = Some _ |- _ => apply find_some in H; destruct H as [? H]
             | H : _ && _ = true |- _ => apply andb_true_iff in H; destruct H as [? H]
             | H : (_ =? _) = true |- _ => apply Z.eqb_eq in H
             end.
    - (* create *)
      rewrite filter_app. cbn [filter user_id].
      destruct (Z.eqb_spec (u_id u) other); [congruence|]. apply app_nil_r.
    - (* patch *)
      apply filter_map_absorb. intros x Hx.
      destruct (Z.eqb_spec (id x) (id i)) as [E | _]; [| left; reflexivity].
      right. assert (x = i) as -> by (apply (unique_ids_inj (items s)); assumption).
      cbn [merge_update user_id].
      split; apply Z.eqb_neq; congruence.
    - (* delete *)
      apply filter_filter_absorb. intros x Hx Hx'.
      apply negb_false_iff, Z.eqb_eq in Hx'.
      assert (x = i) as -> by (apply (unique_ids_inj (items s)); assumption).
      apply Z.eqb_neq. congruence. }
  split; [exact Hscope|].
  intros Hadm other Hne.
  destruct (scope_of r) as [uid |] eqn:Hsc.
  - destruct (not_allowed current_user uid) eqn:Hna.
    + rewrite (router_rejects current_user r uid s Hsc Hna). reflexivity.
    + apply not_allowed_false in Hna.
      apply (Hscope uid other eq_refl). destruct Hna; congruence.
  - destruct r; simpl in Hsc; try discriminate Hsc.
    step. rewrite Hadm. reflexivity.
Qed.


(** ** What a write does to the table *)

(** What a successful [patch_item] went through. *)
Lemma patch_item_success (uid item_id : Z) (current_user : User)
      (item : ItemUpdate) (resp : Response) (s s' : Store) :
  patch_item uid item_id current_user item s = (Return resp, s') ->
  exists u item_db,
    find (fun u => u_id u =? uid) (users s) = Some u /\
    find (fun it => (id it =? item_id) && (user_id it =? uid)) (items s) =
    Some item_db /\
    validate_update item = true /\
    resp = JSONResponse 200 "Item patched successfully!"
             (ItemPayload (merge_update item_db item)) /\
    s' = mkStore (users s)
           (map (fun r => if id r =? id item_db
                          then merge_update item_db item else r) (items s))
           (next_id s).
Proof.
  unfold patch_item. autorewrite with session.
  destruct (not_allowed current_user uid); [discriminate|].
  destruct (find (fun u => u_id u =? uid) (users s)) as [u |] eqn:Hu;
    autorewrite with session; [| discriminate].
  destruct (find _ (items s)) as [item_db |] eqn:Hit;
    autorewrite with session; [| discriminate].
  destruct (validate_update item); cbn [negb]; [| discriminate].
  autorewrite with session. intros H. injection H as <- <-.
  exists u, item_db. repeat split.
Qed.

(** What a successful [delete_item] found and removed. *)
Lemma delete_item_found (uid item_id : Z) (current_user : User)
      (resp : Response) (s s' : Store) :
  delete_item uid item_id current_user s = (Return resp, s') ->
  exists it,
    In it (items s) /\ id it = item_id /\ user_id it = uid /\
    resp = JSONResponse 200 "Item deleted successfully!" NoPayload /\
    s' = mkStore (users s)
           (filter (fun r => negb (id r =? item_id)) (items s))
           (next_id s).
Proof.
  unfold delete_item. autorewrite with session.
  destruct (not_allowed current_user uid); [discriminate|].
  destruct (find (fun u => u_id u =? uid) (users s)) as [u |] eqn:Hu;
    autorewrite with session; [| discriminate].
  destruct (find _ (items s)) as [it |] eqn:Hit;
    autorewrite with session; [| discriminate].
  apply find_some in Hit. destruct Hit as [Hin Hm].
  apply andb_true_iff in Hm. destruct Hm as [Hid Huid].
  apply Z.eqb_eq in Hid. apply Z.eqb_eq in Huid.
  rewrite Hid. intros H. injection H as <- <-.
  exists it. repeat split; assumption.
Qed.

(** Around a row of a table with unique keys, no row has its key. *)
Lemma unique_ids_around (pre post : list Item) (it : Item) :
  unique_ids (pre ++ it :: post) = true ->
  forall r, In r pre \/ In r post -> id r <> id it.
Proof.
  induction pre as [| a pre IH]; intros Hu r Hr.
  - apply unique_ids_head in Hu. destruct Hu as [Hfresh _].
    destruct Hr as [[] | Hr]. apply Hfresh. exact Hr.
  - apply unique_ids_head in Hu. destruct Hu as [Hfresh Hu].
    destruct Hr as [[<- | Hr] | Hr].
    + intros E. apply (Hfresh it); [apply in_elt | symmetry; exact E].
    + apply IH; [exact Hu | left; exact Hr].
    + apply IH; [exact Hu | right; exact Hr].
Qed.

Lemma rewrite_row_at (pre post : list Item) (it it' : Item) :
  (forall r, In r pre \/ In r post -> id r <> id it) ->
  map (fun r => if id r =? id it then it' else r) (pre ++ it :: post) =
  (pre ++ it' :: post)%list.
Proof.
  intros Hne.
  assert (Hkeep : forall l, (forall r, In r l -> id r <> id it) ->
                    map (fun r => if id r =? id it then it' else r) l = l).
  { induction l as [| a l IHl]; intros H; [reflexivity|].
    simpl. rewrite IHl by (intros r Hr; apply H; right; exact Hr).
    destruct (Z.eqb_spec (id a) (id it)) as [E | _]; [| reflexivity].
    exfalso. apply (H a); [left; reflexivity | exact E]. }
  rewrite map_app. cbn [map]. rewrite Z.eqb_refl.
  rewrite !Hkeep; [reflexivity | |]; intros r Hr; apply Hne; tauto.
Qed.

Lemma remove_row_at (pre post : list Item) (it : Item) :
  (forall r, In r pre \/ In r post -> id r <> id it) ->
  filter (fun r => negb (id r =? id it)) (pre ++ it :: post) = (pre ++ post)%list.
Proof.
  intros Hne.
  assert (Hkeep : forall l, (forall r, In r l -> id r <> id it) ->
                    filter (fun r => negb (id r =? id it)) l = l).
  { induction l as [| a l IHl]; intros H; [reflexivity|].
    simpl. rewrite IHl by (intros r Hr; apply H; right; exact Hr).
    destruct (Z.eqb_spec (id a) (id it)) as [E | _]; [| reflexivity].
    exfalso. apply (H a); [left; reflexivity | exact E]. }
  rewrite filter_app. cbn [filter]. rewrite Z.eqb_refl. cbn [negb].
  rewrite !Hkeep; [reflexivity | |]; intros r Hr; apply Hne; tauto.
Qed.

(** X9: a [create_item] that succeeds adds one row and nothing else.
    The table after it is the table before it with the created item
    appended, the items of the target user are the former ones followed
    by the created item, and from then on [get_user_items] for that user
    answers 200, not 204, to every caller the guard lets through. *)
Theorem create_item_appends (uid : Z) (current_user : User) (item : ItemBase)
        (resp : Response) (s s' : Store) :
  create_item uid current_user item s = (Return resp, s') ->
  exists it : Item,
    resp = JSONResponse 201 "Item created successfully!" (ItemPayload it) /\
    items s' = (items s ++ [it])%list /\
    owned_by uid s' = (owned_by uid s ++ [it])%list /\
    (forall reader offset limit, not_allowed reader uid = false ->
       http_status (fst (get_user_items uid reader offset limit s')) = 200).
Proof.
  intros Hrun. apply create_item_success in Hrun.
  destruct Hrun as [[u Hu] [-> ->]].
  eexists. split; [reflexivity|]. cbn [items]. split; [reflexivity|].
  assert (Hown : forall st row, user_id row = uid ->
                   filter (fun it => user_id it =? uid) (st ++ [row]) =
                   (filter (fun it => user_id it =? uid) st ++ [row])%list).
  { intros st row Hrow. rewrite filter_app. cbn [filter].
    rewrite Hrow, Z.eqb_refl. reflexivity. }
  unfold owned_by. cbn [items]. rewrite Hown by reflexivity.
  split; [reflexivity|].
  intros reader offset limit Hna.
  assert (Hid : u_id u = uid).
  { apply find_some in Hu. destruct Hu as [_ H]. apply Z.eqb_eq, H. }
  unfold get_user_items. autorewrite with session. rewrite Hna. cbn [users].
  rewrite Hu. autorewrite with session. rewrite Hid.
  unfold owned_by. cbn [items]. rewrite Hown by reflexivity.
  destruct (filter (fun it => user_id it =? uid) (items s) ++ _)%list eqn:E.
  - exfalso. apply app_eq_nil in E. destruct E as [_ E]. discriminate E.
  - autorewrite with session. reflexivity.
Qed.

(** X10: a [delete_item] that succeeds on a well-formed store removes
    the one row with the requested item id and user id: the table after
    it is the table before it without that row, every other row kept in
    place and in order. *)
Theorem delete_item_removes_one (uid item_id : Z) (current_user : User)
        (resp : Response) (s s' : Store) :
  store_ok s = true ->
  delete_item uid item_id current_user s = (Return resp, s') ->
  exists pre it post,
    items s = (pre ++ it :: post)%list /\ items s' = (pre ++ post)%list /\
    id it = item_id /\ user_id it = uid.
Proof.
  intros Hok Hrun. apply store_ok_iff in Hok. destruct Hok as [Hu _].
  apply delete_item_found in Hrun.
  destruct Hrun as (it & Hin & Hid & Huid & _ & ->).
  apply in_split in Hin. destruct Hin as (pre & post & Hsplit).
  exists pre, it, post. cbn [items]. repeat split; trivial.
  rewrite Hsplit in Hu |- *. rewrite <- Hid.
  apply remove_row_at. apply unique_ids_around. exact Hu.
Qed.

(** X11: a [patch_item] that succeeds on a well-formed store rewrites
    the one row with the requested item id and user id: the table keeps
    its length and order, every other row is untouched, and the row in
    that place is the merged item the response carries. *)
Theorem patch_item_rewrites_one (uid item_id : Z) (current_user : User)
        (item : ItemUpdate) (resp : Response) (s s' : Store) :
  store_ok s = true ->
  patch_item uid item_id current_user item s = (Return resp, s') ->
  exists pre item_db post,
    items s = (pre ++ item_db :: post)%list /\
    items s' = (pre ++ merge_update item_db item :: post)%list /\
    id item_db = item_id /\ user_id item_db = uid /\
    payload_items resp = [merge_update item_db item].
Proof.
  intros Hok Hrun. apply store_ok_iff in Hok. destruct Hok as [Hu _].
  apply patch_item_success in Hrun.
  destruct Hrun as (u & item_db & _ & Hfind & _ & -> & ->).
  apply find_some in Hfind. destruct Hfind as [Hin Hm].
  apply andb_true_iff in Hm. destruct Hm as [Hid Huid].
  apply Z.eqb_eq in Hid. apply Z.eqb_eq in Huid.
  apply in_split in Hin. destruct Hin as (pre & post & Hsplit).
  exists pre, item_db, post. cbn [items payload_items].
  repeat split; trivial.
  rewrite Hsplit in Hu |- *.
  apply rewrite_row_at. apply unique_ids_around. exact Hu.
Qed.


(** ** Writes followed by other requests *)

Lemma merge_update_twice (item_db : Item) (item : ItemUpdate) :
  merge_update (merge_update item_db item) item = merge_update item_db item.
Proof.
  destruct item as [[[| c t] |] [[| c' d] |] [b |]]; reflexivity.
Qed.

Lemma merge_update_nothing (item_db : Item) (item : ItemUpdate) :
  applies_nothing item = true -> merge_update item_db item = item_db.
Proof.
  unfold applies_nothing, merge_update. intros H.
  apply andb_true_iff in H. destruct H as [H Hd].
  apply andb_true_iff in H. destruct H as [Ht Hds].
  apply negb_true_iff in Ht. apply negb_true_iff in Hds.
  rewrite Ht, Hds. destruct (p_done item); [discriminate|].
  destruct item_db; reflexivity.
Qed.

(** No row with the requested id survives the delete. *)
Lemma find_after_delete (l : list Item) (item_id uid : Z) :
  find (fun it => (id it =? item_id) && (user_id it =? uid))
       (filter (fun r => negb (id r =? item_id)) l) = None.
Proof.
  destruct (find _ (filter _ l)) as [x |] eqn:Hx; [| reflexivity].
  exfalso. apply find_some in Hx. destruct Hx as [Hin Hm].
  apply filter_In in Hin. destruct Hin as [_ Hkeep].
  apply andb_true_iff in Hm. destruct Hm as [Hid _].
  rewrite Hid in Hkeep. discriminate Hkeep.
Qed.

(** X12: patching is idempotent.  When a [patch_item] succeeded, sending
    the same patch again answers with the same response and leaves the
    store as the first one left it. *)
Theorem patch_item_idempotent (uid item_id : Z) (current_user : User)
        (item : ItemUpdate) (resp : Response) (s s' : Store) :
  patch_item uid item_id current_user item s = (Return resp, s') ->
  patch_item uid item_id current_user item s' = (Return resp, s').
Proof.
  intros Hrun. pose proof Hrun as Hfirst.
  apply patch_item_success in Hrun.
  destruct Hrun as (u & item_db & Hu & Hfind & Hval & -> & ->).
  pose proof (find_after_update (items s) item_id uid item_db
                (merge_update item_db item) Hfind
                (merge_update_key item_db item)) as Hagain.
  cbn [merge_update id] in Hagain.
  assert (Hnot : not_allowed current_user uid = false).
  { revert Hfirst. unfold patch_item. autorewrite with session.
    destruct (not_allowed current_user uid); [discriminate | reflexivity]. }
  unfold patch_item. autorewrite with session. rewrite Hnot. cbn [users items].
  rewrite Hu. autorewrite with session. cbn [items].
  fold (merge_update item_db item) in Hagain. rewrite Hagain.
  autorewrite with session. rewrite Hval. cbn [negb].
  autorewrite with session. rewrite merge_update_twice. cbn [users items next_id].
  f_equal. f_equal. rewrite map_map. apply map_ext. intros r.
  cbn [merge_update id].
  destruct (Z.eqb_spec (id r) (id item_db)) as [E | NE]; cbn [id].
  - rewrite Z.eqb_refl. reflexivity.
  - destruct (Z.eqb_spec (id r) (id item_db)); [contradiction | reflexivity].
Qed.

(** X13: a patch that supplies no non-empty title, no non-empty
    description and no [done] changes nothing.  When it succeeds on a
    well-formed store, the store after it is the store before it and the
    response carries the row as it is stored. *)
Theorem patch_item_nothing_applied (uid item_id : Z) (current_user : User)
        (item : ItemUpdate) (resp : Response) (s s' : Store) :
  store_ok s = true ->
  applies_nothing item = true ->
  patch_item uid item_id current_user item s = (Return resp, s') ->
  s' = s /\
  exists it, In it (items s) /\ id it = item_id /\ user_id it = uid /\
             payload_items resp = [it].
Proof.
  intros Hok Hnothing Hrun. apply store_ok_iff in Hok. destruct Hok as [Hu _].
  apply patch_item_success in Hrun.
  destruct Hrun as (u & item_db & _ & Hfind & _ & -> & ->).
  rewrite (merge_update_nothing item_db item Hnothing).
  apply find_some in Hfind. destruct Hfind as [Hin Hm].
  apply andb_true_iff in Hm. destruct Hm as [Hid Huid].
  apply Z.eqb_eq in Hid. apply Z.eqb_eq in Huid.
  split.
  - assert (Hsame : map (fun r => if id r =? id item_db then item_db else r)
                        (items s) = items s).
    { rewrite <- (map_id (items s)) at 2. apply map_ext_in. intros r Hr.
      destruct (Z.eqb_spec (id r) (id item_db)) as [E | _]; [| reflexivity].
      symmetry. apply (unique_ids_inj (items s)); assumption. }
    rewrite Hsame. destruct s; reflexivity.
  - exists item_db. repeat split; assumption.
Qed.

(** X14: after a [patch_item] that succeeded, [get_item] with the same
    user id and item id, by any caller the guard lets through, answers
    200 with the very item the patch returned. *)
Theorem patch_then_get (uid item_id : Z) (current_user reader : User)
        (item : ItemUpdate) (resp : Response) (s s' : Store) :
  patch_item uid item_id current_user item s = (Return resp, s') ->
  not_allowed reader uid = false ->
  exists it : Item,
    resp = JSONResponse 200 "Item patched successfully!" (ItemPayload it) /\
    get_item uid item_id reader s' =
    (Return (JSONResponse 200 "Item retrieved successfully!" (ItemPayload it)), s').
Proof.
  intros Hrun Hna. apply patch_item_success in Hrun.
  destruct Hrun as (u & item_db & Hu & Hfind & _ & -> & ->).
  exists (merge_update item_db item). split; [reflexivity|].
  pose proof (find_after_update (items s) item_id uid item_db
                (merge_update item_db item) Hfind
                (merge_update_key item_db item)) as Hagain.
  cbn [merge_update id] in Hagain. fold (merge_update item_db item) in Hagain.
  unfold get_item. autorewrite with session. rewrite Hna. cbn [users items].
  rewrite Hu. autorewrite with session. cbn [items]. rewrite Hagain.
  autorewrite with session. reflexivity.
Qed.

(** X15: an item that was deleted cannot be patched or deleted again.
    After a [delete_item] that succeeded, [patch_item] and [delete_item]
    with the same user id and item id raise the item-not-found 404 for
    every caller the guard lets through, and write nothing. *)
Theorem delete_then_write (uid item_id : Z) (current_user writer : User)
        (item : ItemUpdate) (resp : Response) (s s' : Store) :
  delete_item uid item_id current_user s = (Return resp, s') ->
  not_allowed writer uid = false ->
  patch_item uid item_id writer item s' = (Raise (ItemNotFound item_id uid), s') /\
  delete_item uid item_id writer s' = (Raise (ItemNotFound item_id uid), s').
Proof.
  intros Hrun Hna.
  apply delete_item_success in Hrun. destruct Hrun as [[u Hu] ->].
  unfold patch_item, delete_item. autorewrite with session.
  rewrite Hna. cbn [users items]. rewrite Hu. autorewrite with session.
  cbn [items]. rewrite find_after_delete. autorewrite with session.
  split; reflexivity.
Qed.


(** ** Pages *)

Lemma firstn_more {A} (n m : nat) (l : list A) :
  (firstn n l ++ firstn m (skipn n l))%list = firstn (n + m) l.
Proof.
  revert l. induction n as [| n IH]; intros l; [reflexivity|].
  destruct l as [| a l]; simpl.
  - rewrite firstn_nil. reflexivity.
  - f_equal. apply IH.
Qed.

(** The page after a page continues it. *)
Lemma offset_limit_next {A} (offset limit more : Z) (rows : list A) :
  0 <= offset -> 0 <= limit -> 0 <= more ->
  (offset_limit offset limit rows ++ offset_limit (offset + limit) more rows)%list =
  offset_limit offset (limit + more) rows.
Proof.
  intros Ho Hl Hm. unfold offset_limit.
  rewrite !Z2Nat.inj_add by assumption.
  rewrite (Nat.add_comm (Z.to_nat offset)), <- skipn_skipn.
  apply firstn_more.
Qed.

Lemma in_offset_limit {A} (offset limit : Z) (rows : list A) (x : A) :
  In x (offset_limit offset limit rows) -> In x rows.
Proof.
  unfold offset_limit. intros H.
  rewrite <- (firstn_skipn (Z.to_nat offset) rows). apply in_or_app. right.
  rewrite <- (firstn_skipn (Z.to_nat limit) (skipn (Z.to_nat offset) rows)).
  apply in_or_app. left. exact H.
Qed.

(** What an admin reads off [get_items]: the page, be it empty. *)
Lemma listed_get_items (current_user : User) (offset limit : Z) (s : Store) :
  is_admin current_user = true ->
  listed (get_items current_user offset limit s) =
  offset_limit offset limit (items s).
Proof.
  intros Hadm. unfold listed, get_items. autorewrite with session.
  rewrite Hadm. cbn [negb]. autorewrite with session.
  destruct (offset_limit offset limit (items s)); autorewrite with session;
    reflexivity.
Qed.

(** What a caller the guard lets through reads off [get_user_items]. *)
Lemma listed_get_user_items (uid : Z) (current_user u : User)
      (offset limit : Z) (s : Store) :
  not_allowed current_user uid = false ->
  find (fun u => u_id u =? uid) (users s) = Some u ->
  0 <= offset -> 1 <= limit ->
  listed (get_user_items uid current_user offset limit s) =
  offset_limit offset limit (owned_by uid s).
Proof.
  intros Hna Hu Ho Hl.
  assert (Hid : u_id u = uid).
  { apply find_some in Hu. destruct Hu as [_ H]. apply Z.eqb_eq, H. }
  unfold listed, get_user_items. autorewrite with session.
  rewrite Hna, Hu. autorewrite with session. rewrite Hid.
  destruct (owned_by uid s) as [| it owned]; autorewrite with session;
    cbn [fst payload_items].
  - unfold offset_limit. rewrite skipn_nil, firstn_nil. reflexivity.
  - apply py_slice_page; assumption.
Qed.

(** X16: the pages of [get_items] tile the table.  For an admin, the
    items read with offset [o] and limit [l] followed by those read with
    offset [o + l] and limit [m] are the items read with offset [o] and
    limit [l + m]: no row is skipped and none comes twice. *)
Theorem get_items_pages_tile (current_user : User) (offset limit more : Z)
        (s : Store) :
  is_admin current_user = true -> 0 <= offset -> 1 <= limit -> 1 <= more ->
  (listed (get_items current_user offset limit s) ++
   listed (get_items current_user (offset + limit) more s))%list =
  listed (get_items current_user offset (limit + more) s).
Proof.
  intros Hadm Ho Hl Hm. rewrite !listed_get_items by assumption.
  apply offset_limit_next; lia.
Qed.

(** X17: the pages of [get_user_items] tile the items of the user, for a
    caller the guard lets through and an existing user: offset [o] limit
    [l], then offset [o + l] limit [m], read what offset [o] limit
    [l + m] reads. *)
Theorem get_user_items_pages_tile (uid : Z) (current_user u : User)
        (offset limit more : Z) (s : Store) :
  not_allowed current_user uid = false ->
  find (fun u => u_id u =? uid) (users s) = Some u ->
  0 <= offset -> 1 <= limit -> 1 <= more ->
  (listed (get_user_items uid current_user offset limit s) ++
   listed (get_user_items uid current_user (offset + limit) more s))%list =
  listed (get_user_items uid current_user offset (limit + more) s).
Proof.
  intros Hna Hu Ho Hl Hm.
  rewrite !(listed_get_user_items uid current_user u) by (assumption || lia).
  apply offset_limit_next; lia.
Qed.

(** X18: a listing never returns more than [limit] items, and only rows
    of the table, whoever calls it. *)
Theorem listing_bounds (current_user : User) (r : Request)
        (offset limit : Z) (s : Store) :
  0 <= offset -> 1 <= limit ->
  (r = ListAllItems offset limit \/
   exists uid, r = ListUserItems uid offset limit) ->
  Z.of_nat (List.length (listed (router current_user r s))) <= limit /\
  (forall it, In it (listed (router current_user r s)) -> In it (items s)).
Proof.
  intros Ho Hl Hr.
  assert (Hlen : forall rows : list Item,
             Z.of_nat (List.length (offset_limit offset limit rows)) <= limit).
  { intros rows. unfold offset_limit. rewrite length_firstn. lia. }
  destruct Hr as [-> | [uid ->]]; cbn [router].
  - destruct (is_admin current_user) eqn:Hadm.
    + rewrite listed_get_items by assumption.
      split; [apply Hlen | intros it; apply in_offset_limit].
    + unfold listed, get_items. autorewrite with session. rewrite Hadm.
      cbn [negb fst List.length]. split; [lia | intros it []].
  - split;
      unfold listed, get_user_items; autorewrite with session;
      destruct (not_allowed current_user uid); try (cbn; lia);
      try (intros it []);
      destruct (find (fun u => u_id u =? uid) (users s)) as [u |];
      autorewrite with session; try (cbn; lia); try (intros it []);
      destruct (owned_by (u_id u) s) as [| x owned] eqn:E;
      autorewrite with session; try (cbn; lia); try (intros it []);
      cbn [fst payload_items].
    + rewrite py_slice_page by assumption. apply Hlen.
    + intros it Hit. apply in_py_slice in Hit. rewrite <- E in Hit.
      apply filter_In in Hit. apply Hit.
Qed.

(** X19: a first page that is long enough holds everything.  With
    offset 0 and a limit no smaller than the number of rows, an admin
    reads the whole table off [get_items], in storage order, and a
    caller the guard lets through reads all the items of an existing
    user off [get_user_items]. *)
Theorem first_page_holds_all (uid : Z) (current_user u : User)
        (limit : Z) (s : Store) :
  1 <= limit ->
  (is_admin current_user = true ->
   Z.of_nat (List.length (items s)) <= limit ->
   listed (get_items current_user 0 limit s) = items s) /\
  (not_allowed current_user uid = false ->
   find (fun u => u_id u =? uid) (users s) = Some u ->
   Z.of_nat (List.length (owned_by uid s)) <= limit ->
   listed (get_user_items uid current_user 0 limit s) = owned_by uid s).
Proof.
  intros Hl. split.
  - intros Hadm Hall. rewrite listed_get_items by assumption.
    unfold offset_limit. cbn [Z.to_nat skipn]. apply firstn_all2. lia.
  - intros Hna Hu Hall.
    rewrite (listed_get_user_items uid current_user u) by (assumption || lia).
    unfold offset_limit. cbn [Z.to_nat skipn]. apply firstn_all2. lia.
Qed.

(** ** Finding an item *)

(** X20: on a well-formed store, [get_item] answers a caller the guard
    lets through with 200 and an item exactly when a user with the
    requested id exists and that item is a row of the table with the
    requested item id and user id. *)
Theorem get_item_found_iff (uid item_id : Z) (current_user : User)
        (it : Item) (s : Store) :
  store_ok s = true -> not_allowed current_user uid = false ->
  get_item uid item_id current_user s =
  (Return (JSONResponse 200 "Item retrieved successfully!" (ItemPayload it)), s)
  <->
  (exists u, In u (users s) /\ u_id u = uid) /\
  In it (items s) /\ id it = item_id /\ user_id it = uid.
Proof.
  intros Hok Hna. apply store_ok_iff in Hok. destruct Hok as [Hu _].
  unfold get_item. autorewrite with session. rewrite Hna.
  destruct (find (fun u => u_id u =? uid) (users s)) as [u |] eqn:Hfu;
    autorewrite with session.
  - apply find_some in Hfu. destruct Hfu as [Hinu Hidu]. apply Z.eqb_eq in Hidu.
    destruct (find _ (items s)) as [x |] eqn:Hfx; autorewrite with session.
    + apply find_some in Hfx. destruct Hfx as [Hinx Hm].
      apply andb_true_iff in Hm. destruct Hm as [Hid Huid].
      apply Z.eqb_eq in Hid. apply Z.eqb_eq in Huid.
      split.
      * intros H. injection H as <-. eauto 7.
      * intros (_ & Hin & Hid' & _).
        assert (x = it) as -> by (apply (unique_ids_inj (items s)); congruence).
        reflexivity.
    + split; [discriminate|].
      intros (_ & Hin & Hid & Huid). exfalso.
      pose proof (find_none _ _ Hfx it Hin) as Hno. cbn beta in Hno.
      rewrite Hid, Huid, !Z.eqb_refl in Hno. discriminate Hno.
  - split; [discriminate|].
    intros ((u & Hinu & Hidu) & _). exfalso.
    pose proof (find_none _ _ Hfu u Hinu) as Hno. cbn beta in Hno.
    rewrite Hidu, Z.eqb_refl in Hno. discriminate Hno.
Qed.

(** ** Runs of requests *)

(** X21: the store stays well-formed and the user table stays as it
    was along any sequence of requests, whoever sends them: item ids
    stay unique however creates, patches and deletes are interleaved. *)
Theorem serve_keeps_store_ok (reqs : list (User * Request)) (s : Store) :
  store_ok s = true ->
  store_ok (serve reqs s) = true /\ users (serve reqs s) = users s.
Proof.
  assert (Husers : forall cu r st, users (snd (router cu r st)) = users st).
  { intros cu r st. destruct r; step; repeat (split_tests; step); reflexivity. }
  unfold serve. revert s. induction reqs as [| [cu r] reqs IH]; intros s Hok.
  - split; [exact Hok | reflexivity].
  - cbn [fold_left fst snd].
    destruct (IH (snd (router cu r s)) (router_store_ok cu r s Hok)) as [H1 H2].
    split; [exact H1|]. rewrite H2. apply Husers.
Qed.

End Handlers.

(** * Concrete runs *)

Example admin_creates_for_user_5 :
  create_item accept_base 5 root_user milk_payload one_item_store =
  (Return (JSONResponse 201 "Item created successfully!"
             (ItemPayload (mkItem 2 "Buy milk" "2%" false 5))),
   mkStore [root_user; alice; bob] [milk; mkItem 2 "Buy milk" "2%" false 5] 3).
Proof. reflexivity. Qed.

Example user_7_creates_for_user_5 :
  create_item accept_base 5 bob milk_payload one_item_store =
  (Raise Forbidden, one_item_store).
Proof. reflexivity. Qed.

Example non_admin_lists_all :
  http_status (fst (get_items alice 0 10 two_item_store)) = 403.
Proof. reflexivity. Qed.

Example admin_lists_second_page :
  get_items root_user 1 1 two_item_store =
  (Return (JSONResponse 200 "Items retrieved successfully!" (ItemsPayload [bread])),
   two_item_store).
Proof. reflexivity. Qed.

Example slice_past_the_end : py_slice [milk; bread] 5 15 = [].
Proof. reflexivity. Qed.

Example slice_negative_bound : py_slice [milk; bread] (-1) 9 = [bread].
Proof. reflexivity. Qed.

(** C2, as stated, fails: with one row in the table and [offset = 1] an
    admin gets 204 although the table is not empty. *)
Lemma get_items_204_on_nonempty_table :
  is_admin root_user = true /\ 0 <= 1 /\ 1 <= 10 /\
  ~ (http_status (fst (get_items root_user 1 10 one_item_store)) = 204 <->
     items one_item_store = []).
Proof.
  repeat split; try lia.
  intros [H _]. specialize (H eq_refl). discriminate H.
Qed.

(** * Instances of the theorems *)

Lemma ownership_or_admin_witness :
  scope_of (GetItem 5 1) = Some 5 /\
  fst (router accept_base accept_update bob (GetItem 5 1) one_item_store) = Raise Forbidden /\
  fst (router accept_base accept_update alice (GetItem 5 1) one_item_store) <> Raise Forbidden.
Proof.
  split; [reflexivity|]. split.
  - destruct (ownership_or_admin accept_base accept_update bob (GetItem 5 1) 5
                one_item_store eq_refl) as [_ [_ H]].
    apply H; [reflexivity | discriminate].
  - destruct (ownership_or_admin accept_base accept_update alice (GetItem 5 1) 5
                one_item_store eq_refl) as [H _].
    apply H. right. reflexivity.
Defined.

Lemma forbidden_before_not_found_witness :
  scope_of (GetItem 9 1) = Some 9 /\ is_admin bob = false /\ u_id bob <> 9 /\
  find (fun u => u_id u =? 9) (users empty_store) = None /\
  router accept_base accept_update bob (GetItem 9 1) empty_store = (Raise Forbidden, empty_store).
Proof.
  assert (Hid : u_id bob <> 9) by discriminate.
  split; [reflexivity|]. split; [reflexivity|]. split; [exact Hid|].
  split; [reflexivity|].
  apply (forbidden_before_not_found accept_base accept_update bob (GetItem 9 1) 9
           eq_refl eq_refl Hid empty_store).
Defined.

Lemma get_items_page_witness :
  is_admin root_user = true /\ 0 <= 1 /\ 1 <= 10 /\
  get_items root_user 1 10 two_item_store =
  (Return (JSONResponse 200 "Items retrieved successfully!" (ItemsPayload [bread])),
   two_item_store).
Proof.
  assert (H0 : 0 <= 1) by lia. assert (H1 : 1 <= 10) by lia.
  split; [reflexivity|]. split; [exact H0|]. split; [exact H1|].
  destruct (get_items_page root_user 1 10 two_item_store eq_refl H0 H1)
    as [_ [_ H]].
  apply H. simpl. lia.
Defined.

Lemma get_user_items_no_content_witness :
  not_allowed alice 5 = false /\
  find (fun u => u_id u =? 5) (users one_item_store) = Some alice /\
  owned_by 5 one_item_store <> [] /\
  get_user_items 5 alice 1 10 one_item_store =
  (Return (JSONResponse 200 "Items retrieved successfully!" (ItemsPayload [])),
   one_item_store).
Proof.
  assert (Hown : owned_by 5 one_item_store <> []) by discriminate.
  split; [reflexivity|]. split; [reflexivity|]. split; [exact Hown|].
  destruct (get_user_items_no_content 5 alice alice 1 10 one_item_store
              eq_refl eq_refl) as [_ [_ H]].
  apply H; [exact Hown | lia | lia | simpl; lia].
Defined.

Lemma patch_item_merge_witness :
  not_allowed bob 7 = false /\
  find (fun it => (id it =? 2) && (user_id it =? 7)) (items two_item_store) = Some bread /\
  accept_update blank_title_patch = true /\
  exists (it' : Item) (s' : Store),
    patch_item accept_update 7 2 bob blank_title_patch two_item_store =
    (Return (JSONResponse 200 "Item patched successfully!" (ItemPayload it')), s') /\
    title it' = "Buy bread"%string /\ done it' = false.
Proof.
  split; [reflexivity|]. split; [reflexivity|]. split; [reflexivity|].
  destruct (patch_item_merge accept_update 7 2 bob bob blank_title_patch bread
              two_item_store eq_refl eq_refl eq_refl eq_refl)
    as (it' & s' & Hrun & _ & _ & Htitle & _ & _ & Hdone & _).
  exists it', s'. split; [exact Hrun|]. split.
  - apply Htitle. right. reflexivity.
  - apply Hdone. reflexivity.
Defined.

Lemma item_of_other_user_not_found_witness :
  store_ok one_item_store = true /\ not_allowed bob 7 = false /\
  In milk (items one_item_store) /\ id milk = 1 /\ user_id milk <> 7 /\
  fst (get_item 7 1 bob one_item_store) = Raise (ItemNotFound 1 7) /\
  fst (delete_item 7 1 bob one_item_store) = Raise (ItemNotFound 1 7).
Proof.
  assert (Hin : In milk (items one_item_store)) by (left; reflexivity).
  assert (Hne : user_id milk <> 7) by discriminate.
  split; [reflexivity|]. split; [reflexivity|]. split; [exact Hin|].
  split; [reflexivity|]. split; [exact Hne|].
  destruct (item_of_other_user_not_found accept_update 7 1 bob milk
              blank_title_patch one_item_store eq_refl eq_refl Hin eq_refl Hne)
    as [[_ [_ Hget]] [_ [_ [_ Hdel]]]].
  split; [apply Hget | apply Hdel]; discriminate.
Defined.

Lemma create_item_unknown_user_witness :
  not_allowed root_user 9 = false /\
  find (fun u => u_id u =? 9) (users one_item_store) = None /\
  create_item accept_base 9 root_user milk_payload one_item_store =
  (Raise (UserNotFound 9), one_item_store).
Proof.
  split; [reflexivity|]. split; [reflexivity|].
  destruct (create_item_unknown_user accept_base 9 root_user milk_payload
              one_item_store eq_refl eq_refl) as [_ [_ H]].
  apply H. reflexivity.
Defined.

Lemma create_then_get_witness :
  store_ok one_item_store = true /\ not_allowed alice 5 = false /\
  exists it : Item,
    get_item 5 (id it) alice
      (snd (create_item accept_base 5 root_user milk_payload one_item_store)) =
    (Return (JSONResponse 200 "Item retrieved successfully!" (ItemPayload it)),
     snd (create_item accept_base 5 root_user milk_payload one_item_store)) /\
    title it = "Buy milk"%string /\ description it = "2%"%string /\
    done it = false /\ user_id it = 5.
Proof.
  split; [reflexivity|]. split; [reflexivity|].
  destruct (create_then_get accept_base 5 root_user alice milk_payload
              (JSONResponse 201 "Item created successfully!"
                 (ItemPayload (mkItem 2 "Buy milk" "2%" false 5)))
              one_item_store
              (snd (create_item accept_base 5 root_user milk_payload one_item_store))
              eq_refl eq_refl eq_refl)
    as (it & _ & Hget & Ht & Hd & Hdn & Hu).
  exists it. repeat split; assumption.
Defined.

Lemma delete_then_get_witness :
  not_allowed alice 5 = false /\
  get_item 5 1 alice (snd (delete_item 5 1 alice one_item_store)) =
  (Raise (ItemNotFound 1 5), snd (delete_item 5 1 alice one_item_store)).
Proof.
  split; [reflexivity|].
  destruct (delete_then_get 5 1 alice alice
              (JSONResponse 200 "Item deleted successfully!" NoPayload)
              one_item_store (snd (delete_item 5 1 alice one_item_store))
              eq_refl eq_refl) as [_ [H _]].
  exact H.
Defined.

Lemma keys_never_change_witness :
  store_ok two_item_store = true /\
  map item_key
      (items (snd (router accept_base accept_update bob
                     (PatchItem 7 2 blank_title_patch) two_item_store))) =
  map item_key (items two_item_store).
Proof.
  split; [reflexivity|].
  destruct (keys_never_change accept_base accept_update bob
              (PatchItem 7 2 blank_title_patch) two_item_store eq_refl)
    as [_ [_ H]].
  apply (H 7 2 blank_title_patch). reflexivity.
Defined.

(** * Instances of the further properties *)

Lemma get_items_admin_only_witness :
  is_admin alice = false /\
  get_items alice 0 10 two_item_store = (Raise Forbidden, two_item_store).
Proof.
  split; [reflexivity|].
  destruct (get_items_admin_only alice 0 10 two_item_store) as [H _].
  apply H. reflexivity.
Defined.

Lemma get_routes_read_only_witness :
  is_get (ListUserItems 5 0 10) = true /\
  snd (router accept_base accept_update alice (ListUserItems 5 0 10)
         two_item_store) = two_item_store.
Proof.
  split; [reflexivity|].
  apply (get_routes_read_only accept_base accept_update alice
           (ListUserItems 5 0 10) two_item_store eq_refl).
Defined.

Lemma failure_leaves_store_witness :
  fst (router accept_base accept_update root_user (DeleteItem 5 9) one_item_store) =
  Raise (ItemNotFound 9 5) /\
  snd (router accept_base accept_update root_user (DeleteItem 5 9) one_item_store) =
  one_item_store.
Proof.
  split; [reflexivity|].
  apply (failure_leaves_store accept_base accept_update root_user
           (DeleteItem 5 9) (ItemNotFound 9 5) one_item_store eq_refl).
Defined.

Lemma payload_stays_in_scope_witness :
  fst (router accept_base accept_update root_user (ListUserItems 5 0 10)
         two_item_store) =
  Return (JSONResponse 200 "Items retrieved successfully!" (ItemsPayload [milk])) /\
  forall it, In it [milk] -> user_id it = 5.
Proof.
  split; [reflexivity|].
  destruct (payload_stays_in_scope accept_base accept_update root_user
              (ListUserItems 5 0 10)
              (JSONResponse 200 "Items retrieved successfully!" (ItemsPayload [milk]))
              two_item_store eq_refl) as [H _].
  intros it Hit. apply (H 5 it eq_refl Hit).
Defined.

Lemma other_users_untouched_witness :
  store_ok two_item_store = true /\
  owned_by 5 (snd (router accept_base accept_update bob (DeleteItem 7 2)
                     two_item_store)) = owned_by 5 two_item_store.
Proof.
  split; [reflexivity|].
  destruct (other_users_untouched accept_base accept_update bob (DeleteItem 7 2)
              two_item_store eq_refl) as [_ H].
  apply H; [reflexivity | discriminate].
Defined.

Lemma caller_only_guards_witness :
  scope_of (GetItem 5 1) = Some 5 /\
  not_allowed alice 5 = false /\ not_allowed root_user 5 = false /\
  router accept_base accept_update alice (GetItem 5 1) one_item_store =
  router accept_base accept_update root_user (GetItem 5 1) one_item_store.
Proof.
  split; [reflexivity|]. split; [reflexivity|]. split; [reflexivity|].
  apply (caller_only_guards accept_base accept_update alice root_user
           (GetItem 5 1) 5 one_item_store eq_refl eq_refl eq_refl).
Defined.

Lemma create_item_appends_witness :
  exists it : Item,
    items (snd (create_item accept_base 5 root_user milk_payload one_item_store)) =
    (items one_item_store ++ [it])%list /\
    owned_by 5 (snd (create_item accept_base 5 root_user milk_payload one_item_store)) =
    (owned_by 5 one_item_store ++ [it])%list.
Proof.
  destruct (create_item_appends accept_base 5 root_user milk_payload
              (JSONResponse 201 "Item created successfully!"
                 (ItemPayload (mkItem 2 "Buy milk" "2%" false 5)))
              one_item_store
              (snd (create_item accept_base 5 root_user milk_payload one_item_store))
              eq_refl) as (it & _ & Hitems & Hown & _).
  exists it. split; assumption.
Defined.

Lemma delete_item_removes_one_witness :
  store_ok two_item_store = true /\
  exists pre it post,
    items two_item_store = (pre ++ it :: post)%list /\
    items (snd (delete_item 7 2 bob two_item_store)) = (pre ++ post)%list /\
    id it = 2 /\ user_id it = 7.
Proof.
  split; [reflexivity|].
  apply (delete_item_removes_one 7 2 bob
           (JSONResponse 200 "Item deleted successfully!" NoPayload)
           two_item_store (snd (delete_item 7 2 bob two_item_store))
           eq_refl eq_refl).
Defined.

Lemma patch_item_rewrites_one_witness :
  store_ok two_item_store = true /\
  exists pre item_db post,
    items two_item_store = (pre ++ item_db :: post)%list /\
    items (snd (patch_item accept_update 7 2 bob blank_title_patch two_item_store)) =
    (pre ++ merge_update item_db blank_title_patch :: post)%list.
Proof.
  split; [reflexivity|].
  destruct (patch_item_rewrites_one accept_update 7 2 bob blank_title_patch
              (JSONResponse 200 "Item patched successfully!"
                 (ItemPayload (merge_update bread blank_title_patch)))
              two_item_store
              (snd (patch_item accept_update 7 2 bob blank_title_patch two_item_store))
              eq_refl eq_refl) as (pre & item_db & post & H1 & H2 & _).
  exists pre, item_db, post. split; assumption.
Defined.

Lemma patch_item_idempotent_witness :
  patch_item accept_update 7 2 bob blank_title_patch
    (snd (patch_item accept_update 7 2 bob blank_title_patch two_item_store)) =
  (Return (JSONResponse 200 "Item patched successfully!"
             (ItemPayload (mkItem 2 "Buy bread" "rye" false 7))),
   snd (patch_item accept_update 7 2 bob blank_title_patch two_item_store)).
Proof.
  apply (patch_item_idempotent accept_update 7 2 bob blank_title_patch
           (JSONResponse 200 "Item patched successfully!"
              (ItemPayload (mkItem 2 "Buy bread" "rye" false 7)))
           two_item_store
           (snd (patch_item accept_update 7 2 bob blank_title_patch two_item_store))
           eq_refl).
Defined.

Lemma patch_item_nothing_applied_witness :
  store_ok two_item_store = true /\
  applies_nothing (mkItemUpdate (Some ""%string) None None) = true /\
  snd (patch_item accept_update 7 2 bob (mkItemUpdate (Some ""%string) None None)
         two_item_store) = two_item_store.
Proof.
  split; [reflexivity|]. split; [reflexivity|].
  destruct (patch_item_nothing_applied accept_update 7 2 bob
              (mkItemUpdate (Some ""%string) None None)
              (JSONResponse 200 "Item patched successfully!" (ItemPayload bread))
              two_item_store
              (snd (patch_item accept_update 7 2 bob
                      (mkItemUpdate (Some ""%string) None None) two_item_store))
              eq_refl eq_refl eq_refl) as [H _].
  exact H.
Defined.

Lemma patch_then_get_witness :
  not_allowed root_user 7 = false /\
  exists it : Item,
    get_item 7 2 root_user
      (snd (patch_item accept_update 7 2 bob blank_title_patch two_item_store)) =
    (Return (JSONResponse 200 "Item retrieved successfully!" (ItemPayload it)),
     snd (patch_item accept_update 7 2 bob blank_title_patch two_item_store)).
Proof.
  split; [reflexivity|].
  destruct (patch_then_get accept_update 7 2 bob root_user blank_title_patch
              (JSONResponse 200 "Item patched successfully!"
                 (ItemPayload (merge_update bread blank_title_patch)))
              two_item_store
              (snd (patch_item accept_update 7 2 bob blank_title_patch two_item_store))
              eq_refl eq_refl) as (it & _ & H).
  exists it. exact H.
Defined.

Lemma delete_then_write_witness :
  not_allowed root_user 7 = false /\
  delete_item 7 2 root_user (snd (delete_item 7 2 bob two_item_store)) =
  (Raise (ItemNotFound 2 7), snd (delete_item 7 2 bob two_item_store)).
Proof.
  split; [reflexivity|].
  destruct (delete_then_write accept_update 7 2 bob root_user blank_title_patch
              (JSONResponse 200 "Item deleted successfully!" NoPayload)
              two_item_store (snd (delete_item 7 2 bob two_item_store))
              eq_refl eq_refl) as [_ H].
  exact H.
Defined.

Lemma get_items_pages_tile_witness :
  is_admin root_user = true /\
  (listed (get_items root_user 0 1 two_item_store) ++
   listed (get_items root_user 1 1 two_item_store))%list =
  listed (get_items root_user 0 2 two_item_store).
Proof.
  split; [reflexivity|].
  assert (H0 : 0 <= 0) by lia. assert (H1 : 1 <= 1) by lia.
  exact (get_items_pages_tile root_user 0 1 1 two_item_store eq_refl H0 H1 H1).
Defined.

Lemma get_user_items_pages_tile_witness :
  not_allowed alice 5 = false /\
  find (fun u => u_id u =? 5) (users one_item_store) = Some alice /\
  (listed (get_user_items 5 alice 0 1 one_item_store) ++
   listed (get_user_items 5 alice 1 2 one_item_store))%list =
  listed (get_user_items 5 alice 0 3 one_item_store).
Proof.
  split; [reflexivity|]. split; [reflexivity|].
  assert (H0 : 0 <= 0) by lia. assert (H1 : 1 <= 1) by lia.
  assert (H2 : 1 <= 2) by lia.
  exact (get_user_items_pages_tile 5 alice alice 0 1 2 one_item_store
           eq_refl eq_refl H0 H1 H2).
Defined.

Lemma listing_bounds_witness :
  0 <= 0 /\ 1 <= 1 /\
  Z.of_nat (List.length
              (listed (router accept_base accept_update root_user
                         (ListAllItems 0 1) two_item_store))) <= 1.
Proof.
  assert (H0 : 0 <= 0) by lia. assert (H1 : 1 <= 1) by lia.
  split; [exact H0|]. split; [exact H1|].
  destruct (listing_bounds accept_base accept_update root_user
              (ListAllItems 0 1) 0 1 two_item_store H0 H1
              (or_introl eq_refl)) as [H _].
  exact H.
Defined.

Lemma first_page_holds_all_witness :
  1 <= 10 /\ is_admin root_user = true /\
  listed (get_items root_user 0 10 two_item_store) = items two_item_store.
Proof.
  assert (H1 : 1 <= 10) by lia.
  split; [exact H1|]. split; [reflexivity|].
  destruct (first_page_holds_all 5 root_user alice 10 two_item_store H1)
    as [H _].
  apply H; [reflexivity | simpl; lia].
Defined.

Lemma get_item_found_iff_witness :
  store_ok two_item_store = true /\ not_allowed bob 7 = false /\
  get_item 7 2 bob two_item_store =
  (Return (JSONResponse 200 "Item retrieved successfully!" (ItemPayload bread)),
   two_item_store).
Proof.
  split; [reflexivity|]. split; [reflexivity|].
  apply (get_item_found_iff 7 2 bob bread two_item_store eq_refl eq_refl).
  split.
  - exists bob. split; [right; right; left; reflexivity | reflexivity].
  - split; [right; left; reflexivity | split; reflexivity].
Defined.

Lemma serve_keeps_store_ok_witness :
  store_ok one_item_store = true /\
  store_ok (serve accept_base accept_update
              [(root_user, CreateItem 5 milk_payload);
               (alice, PatchItem 5 1 blank_title_patch);
               (alice, DeleteItem 5 1)] one_item_store) = true.
Proof.
  split; [reflexivity|].
  destruct (serve_keeps_store_ok accept_base accept_update
              [(root_user, CreateItem 5 milk_payload);
               (alice, PatchItem 5 1 blank_title_patch);
               (alice, DeleteItem 5 1)] one_item_store eq_refl) as [H _].
  exact H.
Defined.
